(** * mobile_assistant.py: a shallow embedding and its verified properties

    The single source file [src/mobile_assistant.py] is a voice command
    dispatcher.  Its text handling is pure, everything else is an effect on
    the outside world (sub-processes, the browser, the file system, the
    microphone, the clock).  The embedding keeps that split:

    - [PyStr]    the [str] methods the program calls, on byte strings;
    - [PyTime]   the part of [datetime] the program calls;
    - [Assistant] the functions of the module, in a state-and-trace monad
                  over an explicit [world].

    Scope of the string model.  A Python [str] is represented by a Rocq
    [string], read as the UTF-8 bytes of the text.  [lower] and [strip] are
    the ASCII parts of the Python methods: bytes above 127 are left alone
    and are not white space.  [isdigit] and [int] work on the characters of
    the text, with the digit and white space tables of CPython 3.11
    (Unicode 14) and its default limit of 4300 digits.  Python's arbitrary
    precision integers are [Z]. *)

From Stdlib Require Import ZArith Ascii String List Bool Lia.
From stdpp Require Import base strings list gmap.

Local Open Scope Z_scope.

(* ===================================================================== *)
(** ** Python exceptions that the program can meet *)
(* ===================================================================== *)

Inductive exn : Type :=
| NameError (name : string)        (* name 'x' is not defined *)
| ValueError (detail : string)
| IndexError (detail : string)
| OverflowError (detail : string)
| BackendError (why : string)      (* raised inside a speech library *)
| KeyboardInterrupt                (* the interrupt key *)
| SystemExit (status : Z).         (* raised by sys.exit *)

(** [except Exception] catches every class above but [KeyboardInterrupt]
    and [SystemExit], which derive from [BaseException] only. *)
Definition is_Exception (e : exn) : bool :=
  match e with KeyboardInterrupt | SystemExit _ => false | _ => true end.

(* ===================================================================== *)
(** ** The [str] methods used by the program *)
(* ===================================================================== *)

Module PyStr.

Definition code (c : ascii) : N := N_of_ascii c.

(** [ch.isspace()] on the ASCII range: TAB LF VT FF CR, FS GS RS US, SPACE. *)
Definition isspace (c : ascii) : bool :=
  (((9 <=? code c) && (code c <=? 13)) || ((28 <=? code c) && (code c <=? 32)))%N.

Definition isupper (c : ascii) : bool :=
  ((65 <=? code c) && (code c <=? 90))%N.

Definition lower_char (c : ascii) : ascii :=
  if isupper c then ascii_of_N (code c + 32) else c.

(** [s.lower()] *)
Fixpoint lower (s : string) : string :=
  match s with
  | EmptyString => EmptyString
  | String c r => String (lower_char c) (lower r)
  end.

(** [s.lstrip()] *)
Fixpoint lstrip (s : string) : string :=
  match s with
  | EmptyString => EmptyString
  | String c r => if isspace c then lstrip r else s
  end.

(** [s.rstrip()] *)
Fixpoint rstrip (s : string) : string :=
  match s with
  | EmptyString => EmptyString
  | String c r =>
      match rstrip r with
      | EmptyString => if isspace c then EmptyString else String c EmptyString
      | r' => String c r'
      end
  end.

(** [s.strip()] *)
Definition strip (s : string) : string := rstrip (lstrip s).

(** [s.startswith(p)] *)
Fixpoint startswith (p s : string) : bool :=
  match p, s with
  | EmptyString, _ => true
  | String a p', String b s' => if Ascii.eqb a b then startswith p' s' else false
  | String _ _, EmptyString => false
  end.

(** [sub in s] *)
Fixpoint contains (sub s : string) : bool :=
  startswith sub s ||
  match s with
  | EmptyString => false
  | String _ r => contains sub r
  end.

(** [any(ww in s for ww in words)] *)
Definition any_in (words : list string) (s : string) : bool :=
  existsb (fun ww => contains ww s) words.

(** [bool(s)]: a string is true when it is not empty. *)
Definition truthy (s : string) : bool :=
  match s with EmptyString => false | _ => true end.

(** [o or d] for an optional string [o]: [None] and [""] both give [d]. *)
Definition or_else (o : option string) (d : string) : string :=
  match o with
  | Some s => if truthy s then s else d
  | None => d
  end.

(** [s[n:]] for [0 <= n]. *)
Fixpoint drop (n : nat) (s : string) : string :=
  match n, s with
  | O, _ => s
  | S n', String _ r => drop n' r
  | S _, EmptyString => EmptyString
  end.

(** [all(p(ch) for ch in s)] *)
Fixpoint all (p : ascii -> bool) (s : string) : bool :=
  match s with
  | EmptyString => true
  | String c r => p c && all p r
  end.

(** [s.split(sep, maxsplit)] for a one-character separator; [maxsplit]
    is [None] when the argument is left out. *)
Fixpoint split (sep : ascii) (maxsplit : option nat) (s : string) : list string :=
  match s with
  | EmptyString => [EmptyString]
  | String c r =>
      if Ascii.eqb c sep then
        match maxsplit with
        | Some O => [s]
        | Some (S k) => EmptyString :: split sep (Some k) r
        | None => EmptyString :: split sep None r
        end
      else
        match split sep maxsplit r with
        | w :: ws => String c w :: ws
        | [] => [String c EmptyString]
        end
  end.

(** [sep.join(parts)] *)
Fixpoint join (sep : string) (parts : list string) : string :=
  match parts with
  | [] => EmptyString
  | [w] => w
  | w :: ws => w +:+ sep +:+ join sep ws
  end.

(** [s.replace(a, b)] for one-character [a] and [b]. *)
Fixpoint replace_char (a b : ascii) (s : string) : string :=
  match s with
  | EmptyString => EmptyString
  | String c r => String (if Ascii.eqb c a then b else c) (replace_char a b r)
  end.

(** [s.replace(old, "")] for a non-empty [old]: the occurrences are found
    from the left and do not overlap.  [skip] counts the characters of the
    occurrence in progress that are still to be dropped. *)
Fixpoint remove_go (old : string) (skip : nat) (s : string) : string :=
  match s with
  | EmptyString => EmptyString
  | String c r =>
      match skip with
      | S k => remove_go old k r
      | O =>
          if startswith old s
          then remove_go old (Nat.pred (String.length old)) r
          else String c (remove_go old O r)
      end
  end.

Definition remove (old s : string) : string := remove_go old O s.

(** *** Characters: digits and [int]

    [isdigit] and [int] look at the characters of a text, so the UTF-8
    bytes are read back as code points first. *)

(** The code points of a UTF-8 string; [need] continuation bytes are still
    to come for the code point that has [acc] so far. *)
Fixpoint code_points_go (s : string) (acc : N) (need : nat) : list N :=
  match s with
  | EmptyString => []
  | String c r =>
      let b := code c in
      match need with
      | S O => (acc * 64 + b mod 64)%N :: code_points_go r 0 O
      | S k => code_points_go r (acc * 64 + b mod 64)%N k
      | O =>
          if (b <? 192)%N then b :: code_points_go r 0 O
          else if (b <? 224)%N then code_points_go r (b mod 32)%N 1
          else if (b <? 240)%N then code_points_go r (b mod 16)%N 2
          else code_points_go r (b mod 8)%N 3
      end
  end.

Definition code_points (s : string) : list N := code_points_go s 0 O.

Definition in_ranges (cp : N) (ranges : list (N * N)) : bool :=
  existsb (fun r => (fst r <=? cp)%N && (cp <=? snd r)%N) ranges.

(** The characters beyond ASCII that are decimal digits ([str.isdecimal]):
    runs of ten, or of a multiple of ten, each starting at a digit zero. *)
Definition decimal_runs : list (N * N) :=
  (
  [ (1632, 1641); (1776, 1785); (1984, 1993); (2406, 2415); (2534, 2543);
    (2662, 2671); (2790, 2799); (2918, 2927); (3046, 3055); (3174, 3183);
    (3302, 3311); (3430, 3439); (3558, 3567); (3664, 3673); (3792, 3801);
    (3872, 3881); (4160, 4169); (4240, 4249); (6112, 6121); (6160, 6169);
    (6470, 6479); (6608, 6617); (6784, 6793); (6800, 6809); (6992, 7001);
    (7088, 7097); (7232, 7241); (7248, 7257); (42528, 42537);
    (43216, 43225); (43264, 43273); (43472, 43481); (43504, 43513);
    (43600, 43609); (44016, 44025); (65296, 65305); (66720, 66729);
    (68912, 68921); (69734, 69743); (69872, 69881); (69942, 69951);
    (70096, 70105); (70384, 70393); (70736, 70745); (70864, 70873);
    (71248, 71257); (71360, 71369); (71472, 71481); (71904, 71913);
    (72016, 72025); (72784, 72793); (73040, 73049); (73120, 73129);
    (92768, 92777); (92864, 92873); (93008, 93017); (120782, 120831);
    (123200, 123209); (123632, 123641); (125264, 125273); (130032, 130041) ]
  )%N.

(** The characters that are digits without being decimal digits
    (superscripts, circled digits and the like). *)
Definition other_digits : list (N * N) :=
  (
  [ (178, 179); (185, 185); (4969, 4977); (6618, 6618); (8304, 8304);
    (8308, 8313); (8320, 8329); (9312, 9320); (9332, 9340); (9352, 9360);
    (9450, 9450); (9461, 9469); (9471, 9471); (10102, 10110);
    (10112, 10120); (10122, 10130); (68160, 68163); (69216, 69224);
    (69714, 69722); (127232, 127242) ]
  )%N.

(** The white space characters ([str.isspace]). *)
Definition unicode_spaces : list (N * N) :=
  [ (9, 13); (28, 32); (133, 133); (160, 160); (5760, 5760); (8192, 8202);
    (8232, 8233); (8239, 8239); (8287, 8287); (12288, 12288) ]%N.

(** The value of a character as a decimal digit, if it is one. *)
Definition todecimal (cp : N) : option N :=
  if ((48 <=? cp) && (cp <=? 57))%N then Some (cp - 48)%N
  else if (cp <? 128)%N then None
  else match find (fun r => (fst r <=? cp)%N && (cp <=? snd r)%N) decimal_runs with
       | Some r => Some ((cp - fst r) mod 10)%N
       | None => None
       end.

(** [ch.isdecimal()] *)
Definition isdecimal (cp : N) : bool :=
  match todecimal cp with Some _ => true | None => false end.

(** [ch.isdigit()] *)
Definition isdigit (cp : N) : bool :=
  isdecimal cp || ((128 <=? cp)%N && in_ranges cp other_digits).

(** What [int] makes of one character before it reads the literal: an ASCII
    character stands for itself, any other white space for a space, any
    other decimal digit for its ASCII digit; nothing else is accepted. *)
Definition to_ascii (cp : N) : option N :=
  if (cp <? 127)%N then Some cp
  else if in_ranges cp unicode_spaces then Some 32%N
  else option_map (N.add 48) (todecimal cp).

Fixpoint all_to_ascii (l : list N) : option (list N) :=
  match l with
  | [] => Some []
  | cp :: r =>
      match to_ascii cp, all_to_ascii r with
      | Some c, Some cs => Some (c :: cs)
      | _, _ => None
      end
  end.

(** The white space [int] skips around an ASCII literal: TAB LF VT FF CR
    and SPACE. *)
Definition literal_space (c : N) : bool :=
  (((9 <=? c) && (c <=? 13)) || (c =? 32))%N.

Fixpoint skip_spaces (l : list N) : list N :=
  match l with
  | c :: r => if literal_space c then skip_spaces r else l
  | [] => []
  end.

(** The digits of a literal: decimal digits, single underscores between two
    digits, white space only at the end.  The result is the number and how
    many digits wrote it. *)
Fixpoint literal_digits (l : list N) (acc : Z) (after_digit : bool) (count : nat)
  : option (Z * nat) :=
  match l with
  | [] => if after_digit then Some (acc, count) else None
  | c :: r =>
      if ((48 <=? c) && (c <=? 57))%N
      then literal_digits r (10 * acc + Z.of_N (c - 48)) true (S count)
      else if (c =? 95)%N && after_digit then literal_digits r acc false count
      else if literal_space c && after_digit && forallb literal_space r
           then Some (acc, count)
           else None
  end.

(** The most digits [int] reads (the interpreter's default). *)
Definition MAX_STR_DIGITS : nat := 4300.

(** [int(s)] in base 10 on the characters of [s]: white space around the
    literal is skipped, one sign is allowed, and a literal that is not
    accepted, or that has more than 4300 digits, raises [ValueError]. *)
Definition int_of_code_points (l : list N) : exn + Z :=
  match all_to_ascii l with
  | None => inl (ValueError "int: invalid literal")
  | Some a =>
      let t := skip_spaces a in
      let r :=
        match t with
        | c :: u =>
            if (c =? 43)%N then literal_digits u 0 false O
            else if (c =? 45)%N
                 then option_map (fun nc => (Z.opp (fst nc), snd nc))
                                 (literal_digits u 0 false O)
                 else literal_digits t 0 false O
        | [] => None
        end in
      match r with
      | None => inl (ValueError "int: invalid literal")
      | Some (n, count) =>
          if (MAX_STR_DIGITS <? count)%nat
          then inl (ValueError "int: more than 4300 digits")
          else inr n
      end
  end.

Definition int (s : string) : exn + Z := int_of_code_points (code_points s).


(** The number that a sequence of decimal digits writes; [0] for none. *)
Fixpoint number_go (digits : list N) (acc : Z) : Z :=
  match digits with
  | [] => acc
  | cp :: r =>
      number_go r (10 * acc + match todecimal cp with
                              | Some d => Z.of_N d
                              | None => 0
                              end)
  end.

Definition number (digits : list N) : Z := number_go digits 0.

(** Two and more decimal places of a non-negative number, zero padded. *)
Definition digit_char (n : Z) : ascii := ascii_of_N (Z.to_N (n mod 10) + 48).

Fixpoint padded (width : nat) (n : Z) : string :=
  match width with
  | O => EmptyString
  | S w => padded w (n / 10) +:+ String (digit_char n) EmptyString
  end.

End PyStr.

(* ===================================================================== *)
(** ** The part of [datetime] used by the program *)
(* ===================================================================== *)

Module PyTime.
Import PyStr.

(** A naive [datetime.datetime], field by field as Python stores it. *)
Record datetime : Type := {
  year : Z; month : Z; day : Z;
  hour : Z; minute : Z; second : Z; microsecond : Z
}.

(** [timedelta] in its normal form. *)
Record timedelta_t : Type := { td_days : Z; td_seconds : Z; td_microseconds : Z }.

(** [a < b] on [datetime]: the fields are compared in order. *)
Definition fields (a : datetime) : list Z :=
  [year a; month a; day a; hour a; minute a; second a; microsecond a].

Fixpoint lex_ltb (xs ys : list Z) : bool :=
  match xs, ys with
  | x :: xs', y :: ys' => (x <? y) || ((x =? y) && lex_ltb xs' ys')
  | [], _ :: _ => true
  | _, [] => false
  end.

Definition ltb (a b : datetime) : bool := lex_ltb (fields a) (fields b).

(** [now.replace(hour=hh, minute=mm, second=0, microsecond=0)]: the date is
    kept, the new fields are range checked. *)
Definition replace_time (now : datetime) (hh mm : Z) : exn + datetime :=
  if negb ((0 <=? hh) && (hh <=? 23)) then inl (ValueError "hour must be in 0..23")
  else if negb ((0 <=? mm) && (mm <=? 59)) then inl (ValueError "minute must be in 0..59")
  else inr {| year := year now; month := month now; day := day now;
              hour := hh; minute := mm; second := 0; microsecond := 0 |}.

(** *** The proleptic Gregorian calendar, as in [datetime]'s own code *)

Definition is_leap (y : Z) : bool :=
  (y mod 4 =? 0) && (negb (y mod 100 =? 0) || (y mod 400 =? 0)).

Definition days_in_month (y m : Z) : Z :=
  if m =? 2 then (if is_leap y then 29 else 28)
  else if (m =? 4) || (m =? 6) || (m =? 9) || (m =? 11) then 30 else 31.

Definition days_before_year (y : Z) : Z :=
  let p := y - 1 in p * 365 + p / 4 - p / 100 + p / 400.

Fixpoint days_before_month_go (y : Z) (k : nat) : Z :=
  match k with
  | O => 0
  | S k' => days_before_month_go y k' + days_in_month y (Z.of_nat k)
  end.

Definition days_before_month (y m : Z) : Z :=
  days_before_month_go y (Z.to_nat (m - 1)).

(** [date.toordinal()]: 1 January of year 1 is day 1. *)
Definition ymd2ord (y m d : Z) : Z :=
  days_before_year y + days_before_month y m + d.

(** The month and day of the [n]-th day (from 0) of year [y]. *)
Fixpoint month_day_go (y : Z) (fuel : nat) (m n : Z) : Z * Z :=
  match fuel with
  | O => (m, n + 1)
  | S f =>
      if n <? days_in_month y m then (m, n + 1)
      else month_day_go y f (m + 1) (n - days_in_month y m)
  end.

(** [date.fromordinal(n)] as a triple. *)
Definition ord2ymd (n : Z) : Z * Z * Z :=
  let n := n - 1 in
  let n400 := n / 146097 in
  let n := n mod 146097 in
  let n100 := n / 36524 in
  let n := n mod 36524 in
  let n4 := n / 1461 in
  let n := n mod 1461 in
  let n1 := n / 365 in
  let n := n mod 365 in
  let y := n400 * 400 + 1 + n100 * 100 + n4 * 4 + n1 in
  if (n1 =? 4) || (n100 =? 4) then (y - 1, 12, 31)
  else let '(m, d) := month_day_go y 11 1 n in (y, m, d).

Definition MAXORDINAL : Z := 3652059.

(** [timedelta(days=d, hours=h, minutes=m)] for integer arguments. *)
Definition make_timedelta (d h m : Z) : exn + timedelta_t :=
  let s := h * 3600 + m * 60 in
  let days := d + s / 86400 in
  if Z.abs days >? 999999999
  then inl (OverflowError "days out of range for timedelta")
  else inr {| td_days := days; td_seconds := s mod 86400; td_microseconds := 0 |}.

(** [a + delta] on a [datetime]. *)
Definition add (a : datetime) (delta : timedelta_t) : exn + datetime :=
  let us := microsecond a + td_microseconds delta in
  let s := hour a * 3600 + minute a * 60 + second a + td_seconds delta + us / 1000000 in
  let days := ymd2ord (year a) (month a) (day a) + td_days delta + s / 86400 in
  let s := s mod 86400 in
  if (0 <? days) && (days <=? MAXORDINAL) then
    let '(y, m, d) := ord2ymd days in
    inr {| year := y; month := m; day := d;
           hour := s / 3600; minute := (s mod 3600) / 60; second := s mod 60;
           microsecond := us mod 1000000 |}
  else inl (OverflowError "date value out of range").


(** *** Formatting *)

(** [d.date().isoformat()] *)
Definition date_isoformat (a : datetime) : string :=
  padded 4 (year a) +:+ "-" +:+ padded 2 (month a) +:+ "-" +:+ padded 2 (day a).

(** [d.isoformat()]: the fraction is printed only when it is not zero. *)
Definition isoformat (a : datetime) : string :=
  date_isoformat a +:+ "T" +:+ padded 2 (hour a) +:+ ":" +:+ padded 2 (minute a)
    +:+ ":" +:+ padded 2 (second a)
    +:+ (if microsecond a =? 0 then "" else "." +:+ padded 6 (microsecond a)).

(** [d.strftime("%I:%M %p")] in the C locale. *)
Definition strftime_I_M_p (a : datetime) : string :=
  let h12 := if hour a mod 12 =? 0 then 12 else hour a mod 12 in
  padded 2 h12 +:+ ":" +:+ padded 2 (minute a) +:+ " "
    +:+ (if hour a <? 12 then "AM" else "PM").

(** [d.strftime("%Y%m%d_%H%M%S")], for the four-digit years a clock gives. *)
Definition strftime_stamp (a : datetime) : string :=
  padded 4 (year a) +:+ padded 2 (month a) +:+ padded 2 (day a) +:+ "_"
    +:+ padded 2 (hour a) +:+ padded 2 (minute a) +:+ padded 2 (second a).

End PyTime.

(* ===================================================================== *)
(** ** The module [mobile_assistant] *)
(* ===================================================================== *)

Module Assistant.
Import PyStr PyTime.

(** *** Module level names *)

Definition WAKE_WORDS : list string := ["hey jarvis"; "ok jarvis"; "jarvis"].

(** The words tested by the first rule of [handle_command]. *)
Definition STOP_WORDS : list string := ["exit"; "quit"; "stop"; "bye"].

(** Every name the module binds at top level: the [import] lines, the
    configuration constants and the functions.  [from datetime import
    datetime] binds [datetime] and nothing else. *)
Definition module_globals : list string :=
  [ "os"; "shutil"; "subprocess"; "sys"; "time"; "threading"; "webbrowser";
    "datetime"; "sr"; "pyttsx3"; "wikipedia";
    "WAKE_WORDS"; "NOTES_DIR"; "REMINDERS";
    "HAS_TERMUX_TTS"; "HAS_TERMUX_STT"; "HAS_TERMUX_OPEN"; "HAS_TERMUX_SMS";
    "HAS_TERMUX_CALL"; "_engine";
    "tts"; "listen_once"; "say_and_print"; "ensure_notes_dir"; "add_note";
    "open_url"; "open_file_or_uri"; "send_sms"; "make_call";
    "schedule_reminder"; "handle_command"; "main_loop" ].

(** Reading a name that is neither local nor built in: it must be one of
    the module's globals, otherwise Python raises [NameError]. *)
Definition load_global (name : string) : exn + unit :=
  if existsb (String.eqb name) module_globals then inr tt
  else inl (NameError name).

(** *** What is fixed when the module is loaded *)

Record config : Type := {
  HAS_TERMUX_TTS : bool;
  HAS_TERMUX_STT : bool;
  HAS_TERMUX_OPEN : bool;
  HAS_TERMUX_SMS : bool;
  HAS_TERMUX_CALL : bool;
  has_sr : bool;              (* [sr] is not [None] *)
  has_engine : bool;          (* [_engine] is not [None] *)
  has_wikipedia : bool;       (* [wikipedia] is not [None] *)
  NOTES_DIR : string;         (* [os.path.expanduser("~/assistant_notes")] *)
  (* [wikipedia.summary(query, sentences=k)]: the summary, or the text of
     the exception it raised *)
  wikipedia_summary : string -> Z -> string + string
}.

(** *** The outside world *)

(** Where a call of the SpeechRecognition path that no [try] encloses
    can raise: on entering [with mic as source], in
    [r.adjust_for_ambient_noise], or in [r.recognize_google] with a class
    other than the two it is guarded for. *)
Inductive stage : Type := Opening | Adjusting | Recognizing.

(** One use of the speech backend. *)
Inductive capture : Type :=
| Heard (raw : string)        (* the backend delivered this text *)
| Silence                     (* time-out, or nothing understood *)
| NoMicrophone (why : string) (* [sr.Microphone()] raised *)
| Broken (why : string)       (* the tool failed, or [sr.RequestError] *)
| Crashed (at_stage : stage) (why : string)
                              (* the backend raised another [Exception] *)
| Interrupted.                (* the interrupt key, while the capture waits *)

Inductive event : Type :=
| Print (line : string)
| PrintError (label : string) (e : exn)       (* [print(label, e)] *)
| PrintFault (label : string) (why : string)  (* the same for a backend error *)
| Popen (argv : list string)                  (* [subprocess.Popen] *)
| SubprocessRun (argv : list string)          (* [subprocess.run] *)
| Sleep (microseconds : Z)                    (* [time.sleep] *)
| EngineSay (text : string)
| EngineRunAndWait
| EngineStartLoop
| WebbrowserOpen (url : string)
| SrAdjustForAmbientNoise (microseconds : Z)
| SrListen (timeout phrase_time_limit : Z)
| WikipediaSummary (query : string) (sentences : Z)
| ThreadStart (rem_time : datetime) (message : string).

(** The file system is an ideal one: creating the directory and writing a
    file always succeed (no permissions, no name taken by an entry of the
    other kind).  Of the directories only the notes directory itself is
    followed: its parents, which [os.makedirs] creates with it when they
    are missing, are taken to exist. *)
Record world : Type := {
  REMINDERS : list (datetime * string);
  dirs : gset string;               (* directories that exist *)
  files : gmap string string;       (* regular files and their contents *)
  mic : list capture;               (* what the next captures deliver *)
  clock : nat -> datetime;          (* successive readings of the clock *)
  ticks : nat                       (* readings made so far *)
}.

Definition set_REMINDERS (r : list (datetime * string)) (w : world) : world :=
  {| REMINDERS := r; dirs := dirs w; files := files w; mic := mic w;
     clock := clock w; ticks := ticks w |}.

Definition set_dirs (d : gset string) (w : world) : world :=
  {| REMINDERS := REMINDERS w; dirs := d; files := files w; mic := mic w;
     clock := clock w; ticks := ticks w |}.

Definition set_files (f : gmap string string) (w : world) : world :=
  {| REMINDERS := REMINDERS w; dirs := dirs w; files := f; mic := mic w;
     clock := clock w; ticks := ticks w |}.

Definition set_mic (m : list capture) (w : world) : world :=
  {| REMINDERS := REMINDERS w; dirs := dirs w; files := files w; mic := m;
     clock := clock w; ticks := ticks w |}.

Definition set_ticks (t : nat) (w : world) : world :=
  {| REMINDERS := REMINDERS w; dirs := dirs w; files := files w; mic := mic w;
     clock := clock w; ticks := t |}.

(** *** Computations: a world in, a trace, a world and a result out *)

Inductive outcome (A : Type) : Type :=
| Return (a : A)
| Raise (e : exn).
Arguments Return {A} a.
Arguments Raise {A} e.

Record run (A : Type) : Type := MkRun {
  trace : list event;
  final : world;
  value : outcome A
}.
Arguments MkRun {A} _ _ _.
Arguments trace {A} _.
Arguments final {A} _.
Arguments value {A} _.

Definition M (A : Type) : Type := world -> run A.

Definition ret {A} (a : A) : M A := fun w => MkRun [] w (Return a).

Definition raise {A} (e : exn) : M A := fun w => MkRun [] w (Raise e).

Definition bind {A B} (m : M A) (k : A -> M B) : M B :=
  fun w =>
    let r := m w in
    match value r with
    | Return a =>
        let r' := k a (final r) in
        MkRun (trace r ++ trace r') (final r') (value r')
    | Raise e => MkRun (trace r) (final r) (Raise e)
    end.

Definition emit (e : event) : M unit := fun w => MkRun [e] w (Return tt).

Definition modify (f : world -> world) : M unit :=
  fun w => MkRun [] (f w) (Return tt).

Definition lift {A} (r : exn + A) : M A :=
  match r with inr a => ret a | inl e => raise e end.

Declare Scope m_scope.
Delimit Scope m_scope with M.
Bind Scope m_scope with M.
Notation "'let*' x ':=' m 'in' k" := (bind m (fun x => k))
  (at level 10, x name, m at level 100, k at level 200) : m_scope.
Notation "m ';;' k" := (bind m (fun _ => k))
  (at level 100, k at level 200, right associativity) : m_scope.
Local Open Scope m_scope.

(** [datetime.now()] *)
Definition datetime_now : M datetime :=
  fun w => MkRun [] (set_ticks (S (ticks w)) w) (Return (clock w (ticks w))).

(** [l[i]] *)
Definition item (l : list string) (i : nat) : exn + string :=
  match nth_error l i with
  | Some x => inr x
  | None => inl (IndexError "list index out of range")
  end.

Section WithConfig.
Context (cfg : config).

(** [tts(text, block=False)], lines 68-87. *)
Definition tts (text : option string) (block : bool) : M unit :=
  match text with
  | None => ret tt
  | Some text =>
      if HAS_TERMUX_TTS cfg then
        emit (Popen ["termux-tts-speak"; text]);;
        if block
        then emit (Sleep (Z.min 10000000
                            (40000 * Z.of_nat (String.length text) + 500000)))
        else ret tt
      else if has_engine cfg then
        emit (EngineSay text);;
        if block then emit EngineRunAndWait else emit EngineStartLoop
      else emit (Print ("[TTS unavailable] " +:+ text))
  end.

(** The backend's answer to the next capture; silence when the
    recording of the microphone is used up. *)
Definition next_capture : M capture :=
  fun w =>
    match mic w with
    | [] => MkRun [] w (Return Silence)
    | c :: rest => MkRun [] (set_mic rest w) (Return c)
    end.

(** [listen_once(timeout, phrase_time_limit)], lines 89-136.  With the
    Termux tool the whole capture is inside a [try] whose last handler is
    [except Exception].  With SpeechRecognition only [sr.Microphone()],
    [r.listen] and two classes of [r.recognize_google] are handled; what
    else is raised leaves the function. *)
Definition listen_once (timeout phrase_time_limit : Z) : M (option string) :=
  if HAS_TERMUX_STT cfg then
    emit (SubprocessRun ["termux-speech-to-text"]);;
    let* c := next_capture in
    match c with
    | Heard raw =>
        let res := strip raw in
        ret (if truthy res then Some (lower res) else None)
    | Silence => ret None
    | NoMicrophone why | Broken why | Crashed _ why =>
        emit (PrintFault "Termux STT error:" why);; ret None
    | Interrupted => raise KeyboardInterrupt
    end
  else if negb (has_sr cfg) then
    emit (Print "No speech recognition available (install SpeechRecognition and PyAudio).");;
    ret None
  else
    let* c := next_capture in
    match c with
    | NoMicrophone why =>
        emit (PrintFault "Microphone not available:" why);; ret None
    | Crashed Opening why => raise (BackendError why)
    | Crashed Adjusting why =>
        emit (SrAdjustForAmbientNoise 700000);; raise (BackendError why)
    | Heard raw =>
        emit (SrAdjustForAmbientNoise 700000);;
        emit (SrListen timeout phrase_time_limit);; ret (Some (lower raw))
    | Silence =>
        emit (SrAdjustForAmbientNoise 700000);;
        emit (SrListen timeout phrase_time_limit);; ret None
    | Broken why =>
        emit (SrAdjustForAmbientNoise 700000);;
        emit (SrListen timeout phrase_time_limit);;
        emit (PrintFault "STT request failed:" why);; ret None
    | Crashed Recognizing why =>
        emit (SrAdjustForAmbientNoise 700000);;
        emit (SrListen timeout phrase_time_limit);; raise (BackendError why)
    | Interrupted =>
        emit (SrAdjustForAmbientNoise 700000);;
        emit (SrListen timeout phrase_time_limit);; raise KeyboardInterrupt
    end.

(** [say_and_print(msg)], lines 139-141. *)
Definition say_and_print (msg : string) : M unit :=
  emit (Print ("Assistant: " +:+ msg));;
  tts (Some msg) false.

(** [ensure_notes_dir()]: [os.makedirs(NOTES_DIR, exist_ok=True)]. *)
Definition ensure_notes_dir : M unit :=
  modify (fun w => set_dirs ({[ NOTES_DIR cfg ]} ∪ dirs w) w).

(** [add_note(text)], lines 146-151. *)
Definition add_note (text : string) : M string :=
  ensure_notes_dir;;
  let* now := datetime_now in
  let fname := NOTES_DIR cfg +:+ "/" +:+ "note_" +:+ strftime_stamp now +:+ ".txt" in
  modify (fun w => set_files (<[ fname := text +:+ String "010" "" ]> (files w)) w);;
  ret fname.

(** [open_url(url)], lines 153-157. *)
Definition open_url (url : string) : M unit :=
  if HAS_TERMUX_OPEN cfg then emit (Popen ["termux-open-url"; url])
  else emit (WebbrowserOpen url).

(** [open_file_or_uri(uri)], lines 159-163. *)
Definition open_file_or_uri (uri : string) : M unit :=
  if HAS_TERMUX_OPEN cfg then emit (Popen ["termux-open"; uri])
  else emit (WebbrowserOpen uri).

(** [send_sms(number, message)], lines 165-170. *)
Definition send_sms (number message : string) : M bool :=
  if HAS_TERMUX_SMS cfg then
    emit (SubprocessRun ["termux-sms-send"; "-n"; number; message]);; ret true
  else ret false.

(** [make_call(number)], lines 172-177. *)
Definition make_call (number : string) : M bool :=
  if HAS_TERMUX_CALL cfg then
    emit (SubprocessRun ["termux-telephony-call"; number]);; ret true
  else ret false.


(** [schedule_reminder(rem_time, message)], lines 179-188: the thread is
    started, then the pair is appended to [REMINDERS]. *)
Definition schedule_reminder (rem_time : datetime) (message : string) : M unit :=
  emit (ThreadStart rem_time message);;
  modify (fun w => set_REMINDERS (REMINDERS w ++ [(rem_time, message)]) w).

(** *** The time phrase of a reminder, lines 256-272

    The [try] block assigns to the local variables [when], [n] and
    [rem_time]; what it has assigned by the time an exception is raised
    stays assigned.  So the block is a function from the locals to the
    locals and either a normal end or the exception. *)

Record locals : Type := {
  v_when : string;
  v_n : option Z;                 (* [None]: not assigned *)
  v_rem_time : option datetime    (* Python's [None], or the time *)
}.

Definition P (A : Type) : Type := locals -> locals * (exn + A).

Definition pret {A} (a : A) : P A := fun l => (l, inr a).

Definition pbind {A B} (m : P A) (k : A -> P B) : P B :=
  fun l =>
    match m l with
    | (l', inr a) => k a l'
    | (l', inl e) => (l', inl e)
    end.

Definition plift {A} (r : exn + A) : P A := fun l => (l, r).

Definition assign_when (s : string) : P unit :=
  fun l => ({| v_when := s; v_n := v_n l; v_rem_time := v_rem_time l |}, inr tt).

Definition assign_n (k : Z) : P unit :=
  fun l => ({| v_when := v_when l; v_n := Some k; v_rem_time := v_rem_time l |}, inr tt).

Definition assign_rem_time (t : datetime) : P unit :=
  fun l => ({| v_when := v_when l; v_n := v_n l; v_rem_time := Some t |}, inr tt).

Definition read_when : P string := fun l => (l, inr (v_when l)).

Declare Scope p_scope.
Delimit Scope p_scope with P.
Bind Scope p_scope with P.
Notation "'let*' x ':=' m 'in' k" := (pbind m (fun x => k))
  (at level 10, x name, m at level 100, k at level 200) : p_scope.
Notation "m ';;' k" := (pbind m (fun _ => k))
  (at level 100, k at level 200, right associativity) : p_scope.

(** [int(''.join(ch for ch in when if ch.isdigit()) or 0)] *)
Definition digits_or_0 (when : string) : exn + Z :=
  let joined := List.filter isdigit (code_points when) in
  match joined with
  | [] => inr 0
  | _ :: _ => int_of_code_points joined
  end.

(** [timedelta(days=d, hours=h, minutes=m)]: the name is looked up
    first, then the constructor is called. *)
Definition timedelta (d h m : Z) : exn + timedelta_t :=
  match load_global "timedelta" with
  | inl e => inl e
  | inr _ => make_timedelta d h m
  end.

(** [a + timedelta(...)] *)
Definition plus_timedelta (a : datetime) (d h m : Z) : exn + datetime :=
  match timedelta d h m with
  | inl e => inl e
  | inr delta => add a delta
  end.

(** [hh, mm = map(int, parts)]: the items are converted one at a time
    while the two targets are filled, and a third item is still
    converted before its presence is reported. *)
Definition unpack_hh_mm (parts : list string) : exn + (Z * Z) :=
  match parts with
  | [] => inl (ValueError "not enough values to unpack (expected 2, got 0)")
  | a :: rest =>
      match int a with
      | inl e => inl e
      | inr hh =>
          match rest with
          | [] => inl (ValueError "not enough values to unpack (expected 2, got 1)")
          | b :: rest' =>
              match int b with
              | inl e => inl e
              | inr mm =>
                  match rest' with
                  | [] => inr (hh, mm)
                  | c :: _ =>
                      match int c with
                      | inl e => inl e
                      | inr _ => inl (ValueError "too many values to unpack (expected 2)")
                      end
                  end
              end
          end
      end
  end.

(** The body of the [try], lines 257-272. *)
Definition parse_when (now : datetime) : P unit :=
  (let* when := read_when in
   if startswith "in " when then
     let when := strip (drop 3 when) in
     assign_when when;;
     if contains "minute" when then
       let* n := plift (digits_or_0 when) in
       assign_n n;;
       let* t := plift (plus_timedelta now 0 0 n) in
       assign_rem_time t
     else if contains "hour" when then
       let* n := plift (digits_or_0 when) in
       assign_n n;;
       let* t := plift (plus_timedelta now 0 n 0) in
       assign_rem_time t
     else pret tt
   else if startswith "at " when then
     let* tstr := plift (item (split " " (Some 1%nat) when) 1) in
     let* hm := plift (unpack_hh_mm (split ":" None tstr)) in
     let* t := plift (replace_time now (fst hm) (snd hm)) in
     assign_rem_time t;;
     if ltb t now then
       let* t' := plift (plus_timedelta t 1 0 0) in
       assign_rem_time t'
     else pret tt
   else pret tt)%P.

(** Lines 254-275: [rem_time = None], the [try], and its handler, which
    prints the exception and resets [rem_time]. *)
Definition reminder_time (now : datetime) (when : string) : M (option datetime) :=
  match parse_when now {| v_when := when; v_n := None; v_rem_time := None |} with
  | (l, inr _) => ret (v_rem_time l)
  | (l, inl e) =>
      if is_Exception e
      then emit (PrintError "Reminder parse error:" e);; ret None
      else raise e
  end.

(** *** The tests of the dispatch rules, on the normalised text *)

Definition stop_rule (txt : string) : bool := any_in STOP_WORDS txt.
Definition time_rule (txt : string) : bool := contains "time" txt.
Definition date_rule (txt : string) : bool := contains "date" txt.
Definition search_rule (txt : string) : bool :=
  startswith "search " txt || startswith "google " txt.
Definition open_rule (txt : string) : bool :=
  startswith "open " txt || startswith "launch " txt.
Definition note_rule (txt : string) : bool :=
  startswith "note " txt || contains "take note" txt.
Definition remind_rule (txt : string) : bool := contains "remind me" txt.
Definition call_rule (txt : string) : bool := startswith "call " txt.
Definition sms_rule (txt : string) : bool :=
  startswith "send sms to " txt || startswith "send message to " txt.
Definition wikipedia_rule (txt : string) : bool :=
  contains "wikipedia" txt || startswith "who is " txt || startswith "what is " txt.

(** [text.lower().strip()], line 195. *)
Definition normalise (text : string) : string := strip (lower text).

(** The title looked up by the encyclopedia rule, lines 308-310. *)
Definition wikipedia_query (txt : string) : string :=
  let query := strip (remove "wikipedia" txt) in
  if startswith "who is " query || startswith "what is " query
  then join " " (skipn 2 (split " " None query))
  else query.

(** The URL of a web search, lines 216 and 324. *)
Definition search_url (q : string) : string :=
  "https://www.google.com/search?q=" +:+ replace_char " " "+" q.

(** The text spoken by the default rule, line 323; the bytes between
    "command" and "searching" are those of the source file. *)
Definition fallback_notice (txt : string) : string :=
  "I didn't catch a specific command "
    +:+ String "195" (String "162" (String "226" (String "130" (String "172"
        (String "226" (String "128" (String "157" EmptyString)))))))
    +:+ " searching the web for: " +:+ txt.

(** [handle_command(text)], lines 191-324. *)
Definition handle_command (text : option string) : M unit :=
  match text with
  | None => ret tt
  | Some text =>
    if negb (truthy text) then ret tt else
    let txt := normalise text in
    emit (Print ("Heard: " +:+ txt));;
    if stop_rule txt then
      say_and_print "Goodbye! Stopping assistant.";;
      raise (SystemExit 0)
    else if time_rule txt then
      let* now := datetime_now in
      say_and_print ("The time is " +:+ strftime_I_M_p now +:+ ".")
    else if date_rule txt then
      let* now := datetime_now in
      say_and_print ("Today's date is " +:+ date_isoformat now)
    else if search_rule txt then
      let* q := lift (item (split " " (Some 1%nat) txt) 1) in
      say_and_print ("Searching the web for " +:+ q);;
      open_url (search_url q)
    else if open_rule txt then
      let* target := lift (item (split " " (Some 1%nat) txt) 1) in
      say_and_print ("Opening " +:+ target);;
      if startswith "http" target then open_url target
      else if contains "." target && negb (contains " " target)
           then open_url ("http://" +:+ target)
           else open_file_or_uri target
    else if note_rule txt then
      let* note_text :=
        (if startswith "note " txt
         then lift (item (split " " (Some 1%nat) text) 1)
         else say_and_print "What would you like me to note?";;
              let* heard := listen_once 6 8 in
              ret (or_else heard "")) in
      if truthy note_text then
        let* fname := add_note note_text in
        say_and_print ("Saved note to " +:+ fname)
      else say_and_print "No note recorded."
    else if remind_rule txt then
      say_and_print "Okay, when should I remind you? (say in 10 minutes / at 18:30 / in 1 hour)";;
      let* heard := listen_once 6 8 in
      let when := or_else heard "" in
      say_and_print "What is the reminder message?";;
      let* heard := listen_once 6 8 in
      let message := or_else heard "Reminder" in
      let* now := datetime_now in
      let* rem_time := reminder_time now when in
      match rem_time with
      | Some rem_time =>
          schedule_reminder rem_time message;;
          say_and_print ("Reminder set for " +:+ isoformat rem_time)
      | None => say_and_print "Couldn't parse time. Reminder not set."
      end
    else if call_rule txt then
      let* rest := lift (item (split " " (Some 1%nat) txt) 1) in
      let number := strip rest in
      let* placed := make_call number in
      if placed then say_and_print ("Calling " +:+ number)
      else say_and_print "Call feature unavailable on this device."
    else if sms_rule txt then
      let parts := split " " (Some 3%nat) txt in
      if (4 <=? length parts)%nat then
        let* number := lift (item parts 3) in
        say_and_print "What is the message?";;
        let* heard := listen_once 6 8 in
        let message := or_else heard "" in
        let* sent := (if truthy message then send_sms number message else ret false) in
        if sent then say_and_print "Message sent."
        else say_and_print "Unable to send message."
      else say_and_print "Please say the command like: send sms to +91xxxxxxxxxx"
    else if wikipedia_rule txt then
      let query := wikipedia_query txt in
      if has_wikipedia cfg then
        emit (WikipediaSummary query 2);;
        match wikipedia_summary cfg query 2 with
        | inr summary => say_and_print summary
        | inl why => say_and_print ("Couldn't fetch Wikipedia summary: " +:+ why)
        end
      else
        say_and_print "Wikipedia library not installed. Opening web search.";;
        open_url ("https://en.wikipedia.org/wiki/" +:+ replace_char " " "_" query)
    else
      say_and_print (fallback_notice txt);;
      open_url (search_url txt)
  end.

(** *** The wake-word loop, lines 327-348 *)

(** One turn of the [while True] loop. *)
Definition main_loop_body : M unit :=
  let* heard := listen_once 6 6 in
  match heard with
  | None => ret tt
  | Some spoken =>
      if negb (truthy spoken) then ret tt else
      let spoken := lower spoken in
      if any_in WAKE_WORDS spoken then
        say_and_print "Yes? How can I help?";;
        let* cmd := listen_once 10 12 in
        handle_command cmd
      else if startswith "assistant" spoken || startswith "jarvis" spoken then
        let* cmd := (if contains " " spoken
                     then let* c := lift (item (split " " (Some 1%nat) spoken) 1) in
                          ret (Some c)
                     else ret None) in
        handle_command cmd
      else ret tt
  end.

Fixpoint loop (turns : nat) : M unit :=
  match turns with
  | O => ret tt
  | S k => main_loop_body;; loop k
  end.

(** [main_loop()], cut after [turns] turns of the loop. *)
Definition main_loop (turns : nat) : M unit :=
  say_and_print ("Mobile assistant started. Say the wake word: "
                   +:+ nth 0 WAKE_WORDS "");;
  loop turns.

End WithConfig.

End Assistant.

(* ===================================================================== *)
(** ** What a run shows to the outside *)
(* ===================================================================== *)

Module Observe.
Import PyStr PyTime Assistant.

(** A word that [lower] and [strip] leave alone wherever it occurs: it is
    in lower case and neither starts nor ends with white space. *)
Record solid (w : string) : Prop := {
  solid_lower : lower w = w;
  solid_head : exists c r, w = String c r /\ isspace c = false;
  solid_last : exists r c, w = r +:+ String c "" /\ isspace c = false
}.

(** The events of [say_and_print(msg)]: the printed line, then the voice
    backend the configuration selects. *)
Definition said (cfg : config) (msg : string) : list event :=
  Print ("Assistant: " +:+ msg) ::
  (if HAS_TERMUX_TTS cfg then [Popen ["termux-tts-speak"; msg]]
   else if has_engine cfg then [EngineSay msg; EngineStartLoop]
   else [Print ("[TTS unavailable] " +:+ msg)]).

(** The URL handed to [open_url] by an event, if it is one. *)
Definition opened_url (e : event) : option string :=
  match e with
  | Popen ["termux-open-url"; url] => Some url
  | WebbrowserOpen url => Some url
  | _ => None
  end.

(** The URLs opened in a trace, in order. *)
Definition opened (tr : list event) : list string := omap opened_url tr.

(** An attempt to place a call. *)
Definition is_call (e : event) : bool :=
  match e with
  | SubprocessRun ("termux-telephony-call" :: _) => true
  | _ => false
  end.

(** An invocation of a voice backend, or a printed line. *)
Definition is_voice_or_print (e : event) : bool :=
  match e with
  | Print _ | PrintError _ _ | PrintFault _ _ => true
  | Popen ("termux-tts-speak" :: _) => true
  | EngineSay _ | EngineRunAndWait | EngineStartLoop => true
  | _ => false
  end.


(** A run with more events in front. *)
Definition after {A} (t : list event) (r : run A) : run A :=
  MkRun (t ++ trace r) (final r) (value r).


(** None of the rules before the given one fires. *)
Definition before_remind (txt : string) : bool :=
  negb (stop_rule txt || time_rule txt || date_rule txt || search_rule txt
        || open_rule txt || note_rule txt).

Definition before_call (txt : string) : bool :=
  negb (stop_rule txt || time_rule txt || date_rule txt || search_rule txt
        || open_rule txt || note_rule txt || remind_rule txt).

Definition before_wikipedia (txt : string) : bool :=
  before_call txt && negb (call_rule txt || sms_rule txt).

Definition no_rule (txt : string) : bool :=
  before_wikipedia txt && negb (wikipedia_rule txt).

(** The locals at the start of the [try] block. *)
Definition entry (when : string) : locals :=
  {| v_when := when; v_n := None; v_rem_time := None |}.

(** What lines 254-275 leave in [rem_time]: the time the [try] block
    assigned, or [None] when it assigned none or raised. *)
Definition parsed (now : datetime) (when : string) : option datetime :=
  match parse_when now (entry when) with
  | (l, inr _) => v_rem_time l
  | (_, inl _) => None
  end.

(** What the handler of the [try] prints. *)
Definition parse_complaint (now : datetime) (when : string) : list event :=
  match parse_when now (entry when) with
  | (_, inr _) => []
  | (_, inl e) => [PrintError "Reminder parse error:" e]
  end.

(** No event of the computation satisfies [P], from any world. *)
Definition silent {A} (P : event -> bool) (m : M A) : Prop :=
  forall w, existsb P (trace (m w)) = false.








(** *** Sample configurations and worlds *)

Definition no_summary (query : string) (sentences : Z) : string + string :=
  inl "Page id does not match any pages.".

(** A machine without Termux and without the optional libraries. *)
Definition cfg_plain : config :=
  {| HAS_TERMUX_TTS := false; HAS_TERMUX_STT := false; HAS_TERMUX_OPEN := false;
     HAS_TERMUX_SMS := false; HAS_TERMUX_CALL := false;
     has_sr := false; has_engine := false; has_wikipedia := false;
     NOTES_DIR := "/home/u/assistant_notes"; wikipedia_summary := no_summary |}.

(** A phone with the Termux speech tools but no call tool, and with the
    encyclopedia library, whose look-ups fail. *)
Definition cfg_termux : config :=
  {| HAS_TERMUX_TTS := true; HAS_TERMUX_STT := true; HAS_TERMUX_OPEN := true;
     HAS_TERMUX_SMS := true; HAS_TERMUX_CALL := false;
     has_sr := false; has_engine := false; has_wikipedia := true;
     NOTES_DIR := "/data/data/com.termux/files/home/assistant_notes";
     wikipedia_summary := no_summary |}.

(** A phone with every Termux tool, the call tool included. *)
Definition cfg_phone : config :=
  {| HAS_TERMUX_TTS := true; HAS_TERMUX_STT := true; HAS_TERMUX_OPEN := true;
     HAS_TERMUX_SMS := true; HAS_TERMUX_CALL := true;
     has_sr := false; has_engine := false; has_wikipedia := false;
     NOTES_DIR := "/data/data/com.termux/files/home/assistant_notes";
     wikipedia_summary := no_summary |}.

Definition at_time (h m s : Z) : datetime :=
  {| year := 2024; month := 2; day := 28;
     hour := h; minute := m; second := s; microsecond := 0 |}.

(** A fresh world: nothing scheduled, nothing on disk, the given answers
    waiting at the microphone and a clock stopped at [now]. *)
Definition world_at (now : datetime) (answers : list capture) : world :=
  {| REMINDERS := []; dirs := ∅; files := ∅; mic := answers;
     clock := fun _ => now; ticks := 0 |}.

(** *** More rule precedence and observations *)

Definition before_search (txt : string) : bool :=
  negb (stop_rule txt || time_rule txt || date_rule txt).

Definition before_open (txt : string) : bool :=
  before_search txt && negb (search_rule txt).

Definition before_note (txt : string) : bool :=
  before_open txt && negb (open_rule txt).

Definition before_sms (txt : string) : bool :=
  before_call txt && negb (call_rule txt).

(** A start of the tool that sends a text message. *)
Definition is_sms (e : event) : bool :=
  match e with
  | SubprocessRun ("termux-sms-send" :: _) => true
  | _ => false
  end.

(** The event opens a URL that has a space in it. *)
Definition spaced_url (e : event) : bool :=
  match opened_url e with
  | Some url => contains " " url
  | None => false
  end.

(** What the open rule takes as its target: the text after the first word. *)
Definition open_target (txt : string) : string :=
  if startswith "open " txt then drop 5 txt else drop 7 txt.

(** The computation never ends by [IndexError], from any world. *)
Definition index_safe {A} (m : M A) : Prop :=
  forall w d, value (m w) <> Raise (IndexError d).

(** The computation leaves alone every file that is not a note of the
    notes directory. *)
Definition keeps_other_files (cfg : config) {A} (m : M A) : Prop :=
  forall w path,
    startswith (NOTES_DIR cfg +:+ "/note_") path = false ->
    files (final (m w)) !! path = files w !! path.

End Observe.

(* ===================================================================== *)
(** ** Facts about the string methods *)
(* ===================================================================== *)

Module PyStrFacts.
Import PyStr Observe.

(** [String.append] is never unfolded by [simpl]; these are its two
    equations. *)
Lemma append_nil_l (s : string) : "" +:+ s = s.
Proof. reflexivity. Qed.

Lemma append_cons (c : ascii) (s t : string) :
  String c s +:+ t = String c (s +:+ t).
Proof. reflexivity. Qed.

Ltac norm := rewrite ?append_cons, ?append_nil_l.

Lemma append_nil_r (s : string) : s +:+ "" = s.
Proof. induction s as [|c s IH]; norm; [reflexivity | now rewrite IH]. Qed.

Lemma append_assoc (a b c : string) : (a +:+ b) +:+ c = a +:+ (b +:+ c).
Proof. induction a as [|x a IH]; norm; [reflexivity | now rewrite IH]. Qed.

Lemma startswith_append (p r : string) : startswith p (p +:+ r) = true.
Proof.
  induction p as [|c p IH]; norm; simpl; [reflexivity|].
  now rewrite Ascii.eqb_refl.
Qed.

Lemma startswith_inv (p s : string) :
  startswith p s = true -> exists r, s = p +:+ r.
Proof.
  revert s; induction p as [|c p IH]; intros s H.
  - exists s; reflexivity.
  - destruct s as [|d s]; simpl in H; [discriminate|].
    destruct (Ascii.eqb c d) eqn:E; [|discriminate].
    apply Ascii.eqb_eq in E; subst d.
    destruct (IH _ H) as [r ->]. exists r; reflexivity.
Qed.

Lemma contains_append (a w b : string) : contains w (a +:+ w +:+ b) = true.
Proof.
  induction a as [|c a IH]; norm.
  - destruct (w +:+ b) eqn:E; simpl; rewrite <- E, startswith_append; reflexivity.
  - simpl. rewrite IH. apply orb_true_r.
Qed.

Lemma contains_inv (w s : string) :
  contains w s = true -> exists a b, s = a +:+ w +:+ b.
Proof.
  induction s as [|c s IH]; simpl; intros H.
  - rewrite orb_false_r in H. destruct (startswith_inv _ _ H) as [r Hr].
    exists "", r; exact Hr.
  - apply orb_true_iff in H as [H|H].
    + destruct (startswith_inv _ _ H) as [r Hr]. exists "", r; exact Hr.
    + destruct (IH H) as (a & b & ->). exists (String c a), b; reflexivity.
Qed.

Lemma startswith_contains (p s : string) :
  startswith p s = true -> contains p s = true.
Proof. intros H. destruct s; simpl; rewrite H; reflexivity. Qed.

Lemma lower_append (a b : string) : lower (a +:+ b) = lower a +:+ lower b.
Proof. induction a as [|c a IH]; norm; simpl; [reflexivity | now rewrite IH]. Qed.

Lemma lstrip_append (a r : string) (c : ascii) :
  isspace c = false -> lstrip (a +:+ String c r) = lstrip a +:+ String c r.
Proof.
  intros Hc. induction a as [|x a IH]; norm; simpl.
  - now rewrite Hc.
  - destruct (isspace x); [exact IH | reflexivity].
Qed.

Lemma rstrip_append (a r : string) (c : ascii) :
  isspace c = false -> rstrip (a +:+ String c r) = a +:+ String c (rstrip r).
Proof.
  intros Hc. induction a as [|x a IH]; norm.
  - simpl. destruct (rstrip r); [now rewrite Hc | reflexivity].
  - simpl. rewrite IH. destruct a; reflexivity.
Qed.

Lemma contains_strip (w s : string) :
  solid w -> contains w s = true -> contains w (strip s) = true.
Proof.
  intros [_ (c & r & Hw & Hc) (r' & c' & Hw' & Hc')] H.
  destruct (contains_inv _ _ H) as (a & b & ->).
  assert (E1 : lstrip (a +:+ w +:+ b) = lstrip a +:+ w +:+ b).
  { rewrite Hw. norm. now rewrite lstrip_append. }
  assert (E2 : rstrip (lstrip a +:+ w +:+ b) = lstrip a +:+ w +:+ rstrip b).
  { rewrite Hw'. rewrite <- !append_assoc. rewrite !(append_assoc _ (String c' "")).
    norm. now rewrite rstrip_append. }
  unfold strip. rewrite E1, E2. apply contains_append.
Qed.

Lemma contains_lower (w s : string) :
  lower w = w -> contains w s = true -> contains w (lower s) = true.
Proof.
  intros Hw H. destruct (contains_inv _ _ H) as (a & b & ->).
  rewrite !lower_append, Hw. apply contains_append.
Qed.

Lemma startswith_lower (p s : string) :
  lower p = p -> startswith p s = true -> startswith p (lower s) = true.
Proof.
  intros Hp H. destruct (startswith_inv _ _ H) as (r & ->).
  rewrite lower_append, Hp. apply startswith_append.
Qed.

Lemma contains_truthy (w s : string) :
  truthy w = true -> contains w s = true -> truthy s = true.
Proof.
  intros Hw H. destruct s; [|reflexivity].
  destruct w; [discriminate | simpl in H; discriminate].
Qed.

(** *** [int] on a sequence of decimal digits *)










Lemma int_of_code_points_exception (l : list N) (e : exn) :
  int_of_code_points l = inl e -> is_Exception e = true.
Proof.
  unfold int_of_code_points.
  destruct (all_to_ascii l) as [a|]; [|intros H; now inversion H].
  destruct (match skip_spaces a with
            | c :: u =>
                if (c =? 43)%N then literal_digits u 0 false O
                else if (c =? 45)%N
                     then option_map (fun nc => (Z.opp (fst nc), snd nc))
                                     (literal_digits u 0 false O)
                     else literal_digits (skip_spaces a) 0 false O
            | [] => None
            end) as [[n count]|]; [|intros H; now inversion H].
  destruct (MAX_STR_DIGITS <? count)%nat; intros H; now inversion H.
Qed.

End PyStrFacts.


(* ===================================================================== *)
(** ** Properties of the module *)
(* ===================================================================== *)

Import PyStr PyStrFacts PyTime Assistant Observe.
Local Open Scope m_scope.

(** *** Runs of the small operations *)

Lemma say_and_print_run (cfg : config) (msg : string) (w : world) :
  say_and_print cfg msg w = MkRun (said cfg msg) w (Return tt).
Proof.
  unfold say_and_print, said, tts, bind, emit, ret.
  destruct (HAS_TERMUX_TTS cfg); [reflexivity|].
  destruct (has_engine cfg); reflexivity.
Qed.

Lemma bind_run {A B} (m : M A) (k : A -> M B) (w w' : world)
      (t : list event) (a : A) :
  m w = MkRun t w' (Return a) -> bind m k w = after t (k a w').
Proof. intros H. unfold bind, after. rewrite H. reflexivity. Qed.

Lemma bind_emit {B} (e : event) (k : unit -> M B) (w : world) :
  bind (emit e) k w = after [e] (k tt w).
Proof. reflexivity. Qed.

Lemma bind_say {B} (cfg : config) (msg : string) (k : unit -> M B) (w : world) :
  bind (say_and_print cfg msg) k w = after (said cfg msg) (k tt w).
Proof. apply bind_run, say_and_print_run. Qed.

Lemma bind_ret {A B} (a : A) (k : A -> M B) (w : world) :
  bind (ret a) k w = k a w.
Proof. unfold bind, ret; simpl. destruct (k a w); reflexivity. Qed.

Lemma after_after {A} (t t' : list event) (r : run A) :
  after t (after t' r) = after (t ++ t') r.
Proof. unfold after; simpl. now rewrite app_assoc. Qed.

Lemma after_run {A} (t t' : list event) (w : world) (v : outcome A) :
  after t (MkRun t' w v) = MkRun (t ++ t') w v.
Proof. reflexivity. Qed.

Lemma solid_stop_words (ww : string) : In ww STOP_WORDS -> solid ww.
Proof.
  intros [<-|[<-|[<-|[<-|[]]]]]; split; try reflexivity.
  - exists "e"%char, "xit"; split; reflexivity.
  - exists "exi", "t"%char; split; reflexivity.
  - exists "q"%char, "uit"; split; reflexivity.
  - exists "qui", "t"%char; split; reflexivity.
  - exists "s"%char, "top"; split; reflexivity.
  - exists "sto", "p"%char; split; reflexivity.
  - exists "b"%char, "ye"; split; reflexivity.
  - exists "by", "e"%char; split; reflexivity.
Qed.

(** A stop word in the utterance, in lower case or not, is found in the
    normalised text. *)
Lemma stop_rule_normalise (text ww : string) :
  In ww STOP_WORDS -> contains ww (lower text) = true ->
  stop_rule (normalise text) = true.
Proof.
  intros Hin H. unfold stop_rule, any_in, normalise.
  apply existsb_exists. exists ww. split; [exact Hin|].
  apply contains_strip; [now apply solid_stop_words | exact H].
Qed.

Lemma stop_run (cfg : config) (w : world) (text : string) :
  truthy text = true -> stop_rule (normalise text) = true ->
  handle_command cfg (Some text) w =
    MkRun (Print ("Heard: " +:+ normalise text)
             :: said cfg "Goodbye! Stopping assistant.")
          w (Raise (SystemExit 0)).
Proof.
  intros Hne Hstop. unfold handle_command. rewrite Hne, Hstop. cbn [negb].
  rewrite bind_emit, bind_say. unfold raise. rewrite !after_run.
  now rewrite app_nil_r.
Qed.

(** C4.  An utterance that contains "exit", "quit", "stop" or "bye" makes
    [handle_command] print what it heard, speak the farewell and raise
    [SystemExit(0)], whatever else the utterance contains; nothing else
    happens and the world is left as it was.  In particular an utterance
    with both "stop" and "time" ends the process and does not tell the
    time. *)
Theorem stop_word_exits (cfg : config) (w : world) (text ww : string) :
  In ww STOP_WORDS -> contains ww text = true ->
  handle_command cfg (Some text) w =
    MkRun (Print ("Heard: " +:+ normalise text)
             :: said cfg "Goodbye! Stopping assistant.")
          w (Raise (SystemExit 0))
  /\ (contains "time" text = true ->
      time_rule (normalise text) = true
      /\ value (handle_command cfg (Some text) w) = Raise (SystemExit 0)
      /\ ticks (final (handle_command cfg (Some text) w)) = ticks w).
Proof.
  intros Hin H.
  assert (Hsolid : solid ww) by now apply solid_stop_words.
  assert (Hne : truthy text = true).
  { eapply contains_truthy; [|exact H].
    destruct Hin as [<-|[<-|[<-|[<-|[]]]]]; reflexivity. }
  assert (Hstop : stop_rule (normalise text) = true).
  { apply (stop_rule_normalise text ww Hin).
    apply contains_lower; [apply Hsolid | exact H]. }
  rewrite (stop_run cfg w text Hne Hstop).
  split; [reflexivity|]. intros Ht. repeat split.
  unfold time_rule, normalise. apply contains_strip.
  - split; [reflexivity | exists "t"%char, "ime"; now split
                        | exists "tim", "e"%char; now split].
  - now apply contains_lower.
Qed.

Lemma stop_word_exits_witness :
  In "stop" STOP_WORDS /\ contains "stop" "please stop the time" = true
  /\ handle_command cfg_plain (Some "please stop the time") (world_at (at_time 9 0 0) [])
     = MkRun [Print "Heard: please stop the time";
              Print "Assistant: Goodbye! Stopping assistant.";
              Print "[TTS unavailable] Goodbye! Stopping assistant."]
             (world_at (at_time 9 0 0) []) (Raise (SystemExit 0)).
Proof.
  split; [simpl; tauto|]. split; [reflexivity|].
  refine (proj1 (stop_word_exits cfg_plain (world_at (at_time 9 0 0) [])
                   "please stop the time" "stop" _ _)).
  - simpl; tauto.
  - reflexivity.
Defined.

(** *** The wake-word loop *)

Lemma jarvis_is_wake_word (s : string) :
  startswith "jarvis" s = true -> any_in WAKE_WORDS s = true.
Proof.
  intros H. unfold any_in, WAKE_WORDS. simpl.
  rewrite (startswith_contains _ _ H). now rewrite !orb_true_r.
Qed.

(** C10.  When the first capture of a turn of the loop delivers a phrase
    that starts with "jarvis", the turn takes the wake-word branch: it says
    "Yes? How can I help?", listens a second time with the longer limits and
    hands the result to [handle_command].  The inline branch cannot be
    taken for such a phrase: whenever no wake word occurs in the lowered
    phrase, the phrase does not start with "jarvis" either. *)
Theorem jarvis_prefix_wakes (cfg : config) (w w1 : world) (t : list event)
        (spoken : string) :
  listen_once cfg 6 6 w = MkRun t w1 (Return (Some spoken)) ->
  startswith "jarvis" spoken = true ->
  main_loop_body cfg w =
    after (t ++ said cfg "Yes? How can I help?")
          ((let* cmd := listen_once cfg 10 12 in handle_command cfg cmd) w1)
  /\ (forall heard : string,
        any_in WAKE_WORDS (lower heard) = false ->
        startswith "jarvis" (lower heard) = false).
Proof.
  intros Hl Hj. split.
  - unfold main_loop_body. rewrite (bind_run _ _ _ _ _ _ Hl).
    assert (Hne : truthy spoken = true) by (destruct spoken; [discriminate | reflexivity]).
    rewrite Hne. cbn [negb].
    rewrite (jarvis_is_wake_word (lower spoken))
      by (apply startswith_lower; [reflexivity | exact Hj]).
    rewrite bind_say. now rewrite after_after.
  - intros heard Hno. destruct (startswith "jarvis" (lower heard)) eqn:E; [|reflexivity].
    now rewrite (jarvis_is_wake_word _ E) in Hno.
Qed.

Lemma jarvis_prefix_wakes_witness :
  main_loop_body cfg_termux (world_at (at_time 9 0 0) [Heard "Jarvis what time is it"; Heard "stop"])
  = MkRun [SubprocessRun ["termux-speech-to-text"];
           Print "Assistant: Yes? How can I help?";
           Popen ["termux-tts-speak"; "Yes? How can I help?"];
           SubprocessRun ["termux-speech-to-text"];
           Print "Heard: stop";
           Print "Assistant: Goodbye! Stopping assistant.";
           Popen ["termux-tts-speak"; "Goodbye! Stopping assistant."]]
          (world_at (at_time 9 0 0) []) (Raise (SystemExit 0)).
Proof.
  refine (eq_trans
            (proj1 (jarvis_prefix_wakes cfg_termux
                      (world_at (at_time 9 0 0) [Heard "Jarvis what time is it"; Heard "stop"])
                      (world_at (at_time 9 0 0) [Heard "stop"])
                      [SubprocessRun ["termux-speech-to-text"]]
                      "jarvis what time is it" _ _)) _);
    reflexivity.
Defined.

(** *** The number of an "in ..." phrase *)

Lemma digits_or_0_exception (when : string) (e : exn) :
  digits_or_0 when = inl e -> is_Exception e = true.
Proof.
  unfold digits_or_0.
  destruct (List.filter isdigit (code_points when)) as [|cp ds]; [discriminate|].
  apply int_of_code_points_exception.
Qed.


Lemma timedelta_unbound (d h m : Z) : timedelta d h m = inl (NameError "timedelta").
Proof. reflexivity. Qed.

Lemma plus_timedelta_unbound (a : datetime) (d h m : Z) :
  plus_timedelta a d h m = inl (NameError "timedelta").
Proof. reflexivity. Qed.




(** *** The note store *)

(** C6.  [add_note(text)] makes sure the notes directory exists (it is added
    to the directories of the world, which changes nothing when it is there
    already, and doing it twice is the same as doing it once), writes the
    file [NOTES_DIR/note_<stamp>.txt] whose contents are the text followed by
    one line feed, touches no other file, and returns the path of that file;
    for "buy milk" the file holds "buy milk" and a line feed. *)
Theorem add_note_writes (cfg : config) (w : world) (text : string) :
  let fname := NOTES_DIR cfg +:+ "/" +:+ "note_"
                 +:+ strftime_stamp (clock w (ticks w)) +:+ ".txt" in
  let r := add_note cfg text w in
  value r = Return fname
  /\ startswith (NOTES_DIR cfg +:+ "/") fname = true
  /\ dirs (final r) = {[ NOTES_DIR cfg ]} ∪ dirs w
  /\ dirs (final (ensure_notes_dir cfg (final (ensure_notes_dir cfg w))))
     = dirs (final (ensure_notes_dir cfg w))
  /\ files (final r) = <[ fname := text +:+ String "010" "" ]> (files w)
  /\ files (final r) !! fname = Some (text +:+ String "010" "")
  /\ files (final (add_note cfg "buy milk" w)) !! fname
     = Some (String "b" (String "u" (String "y" (String " " (String "m"
            (String "i" (String "l" (String "k" (String "010" ""))))))))).
Proof.
  cbn zeta.
  split; [reflexivity|].
  split; [rewrite <- (append_assoc (NOTES_DIR cfg) "/"); apply startswith_append|].
  split; [reflexivity|].
  split; [simpl; now rewrite (assoc_L (∪)), (idemp_L (∪))|].
  split; [reflexivity|].
  split; simpl; apply lookup_insert_eq.
Qed.

(** *** The voice output *)

(** C8 as stated fails on the empty text: without a voice backend, [tts("")]
    prints a line, and with Termux it starts the speech tool. *)
Lemma tts_empty_text_acts :
  tts cfg_plain (Some "") false (world_at (at_time 9 0 0) [])
    = MkRun [Print "[TTS unavailable] "] (world_at (at_time 9 0 0) []) (Return tt)
  /\ tts cfg_termux (Some "") false (world_at (at_time 9 0 0) [])
    = MkRun [Popen ["termux-tts-speak"; ""]] (world_at (at_time 9 0 0) []) (Return tt)
  /\ existsb is_voice_or_print
       (trace (tts cfg_plain (Some "") false (world_at (at_time 9 0 0) []))) = true
  /\ ~ (forall (cfg : config) (block : bool) (w : world),
          trace (tts cfg (Some "") block w) = []).
Proof.
  repeat split.
  intros H. specialize (H cfg_plain false (world_at (at_time 9 0 0) [])).
  discriminate H.
Qed.

(** C8, amended.  [tts(None)] does nothing at all: no event, the world
    unchanged.  The empty text is treated like any other text: the first
    event of [tts("")] is the call of the speech tool, the engine's [say], or
    the printed line, as the configuration selects. *)
Theorem tts_none_is_noop (cfg : config) (block : bool) (w : world) :
  tts cfg None block w = MkRun [] w (Return tt)
  /\ hd_error (trace (tts cfg (Some "") block w))
     = Some (if HAS_TERMUX_TTS cfg then Popen ["termux-tts-speak"; ""]
             else if has_engine cfg then EngineSay ""
             else Print "[TTS unavailable] ").
Proof.
  split; [reflexivity|].
  unfold tts. destruct (HAS_TERMUX_TTS cfg); [destruct block; reflexivity|].
  destruct (has_engine cfg); [destruct block; reflexivity | reflexivity].
Qed.

(** *** Which rule fires *)

Lemma before_call_inv (txt : string) :
  before_call txt = true ->
  stop_rule txt = false /\ time_rule txt = false /\ date_rule txt = false
  /\ search_rule txt = false /\ open_rule txt = false
  /\ note_rule txt = false /\ remind_rule txt = false.
Proof.
  unfold before_call.
  destruct (stop_rule txt); [discriminate|].
  destruct (time_rule txt); [discriminate|].
  destruct (date_rule txt); [discriminate|].
  destruct (search_rule txt); [discriminate|].
  destruct (open_rule txt); [discriminate|].
  destruct (note_rule txt); [discriminate|].
  destruct (remind_rule txt); [discriminate|].
  tauto.
Qed.

Lemma before_wikipedia_inv (txt : string) :
  before_wikipedia txt = true ->
  before_call txt = true /\ call_rule txt = false /\ sms_rule txt = false.
Proof.
  unfold before_wikipedia.
  destruct (before_call txt); [|discriminate].
  destruct (call_rule txt); [discriminate|].
  destruct (sms_rule txt); [discriminate|].
  tauto.
Qed.

(** With rules 1 to 7 out of the way, [handle_command] is its tail from the
    "call" rule on. *)
Lemma skip_to_call (cfg : config) (w : world) (text : string) :
  truthy text = true -> before_call (normalise text) = true ->
  handle_command cfg (Some text) w =
    after [Print ("Heard: " +:+ normalise text)]
      ((let txt := normalise text in
        if call_rule txt then
          let* rest := lift (item (split " " (Some 1%nat) txt) 1) in
          let number := strip rest in
          let* placed := make_call cfg number in
          if placed then say_and_print cfg ("Calling " +:+ number)
          else say_and_print cfg "Call feature unavailable on this device."
        else if sms_rule txt then
          let parts := split " " (Some 3%nat) txt in
          if (4 <=? length parts)%nat then
            let* number := lift (item parts 3) in
            say_and_print cfg "What is the message?";;
            let* heard := listen_once cfg 6 8 in
            let message := or_else heard "" in
            let* sent := (if truthy message then send_sms cfg number message
                          else ret false) in
            if sent then say_and_print cfg "Message sent."
            else say_and_print cfg "Unable to send message."
          else say_and_print cfg "Please say the command like: send sms to +91xxxxxxxxxx"
        else if wikipedia_rule txt then
          let query := wikipedia_query txt in
          if has_wikipedia cfg then
            emit (WikipediaSummary query 2);;
            match wikipedia_summary cfg query 2 with
            | inr summary => say_and_print cfg summary
            | inl why => say_and_print cfg ("Couldn't fetch Wikipedia summary: " +:+ why)
            end
          else
            say_and_print cfg "Wikipedia library not installed. Opening web search.";;
            open_url cfg ("https://en.wikipedia.org/wiki/" +:+ replace_char " " "_" query)
        else
          say_and_print cfg (fallback_notice txt);;
          open_url cfg (search_url txt)) w).
Proof.
  intros Hne Hb.
  destruct (before_call_inv _ Hb) as (H1 & H2 & H3 & H4 & H5 & H6 & H7).
  unfold handle_command. rewrite Hne. cbn [negb]. cbn zeta.
  rewrite bind_emit, H1, H2, H3, H4, H5, H6, H7. reflexivity.
Qed.

Lemma opened_app (t t' : list event) : opened (t ++ t') = opened t ++ opened t'.
Proof. unfold opened. apply omap_app. Qed.

Lemma opened_said (cfg : config) (msg : string) : opened (said cfg msg) = [].
Proof.
  unfold said. destruct (HAS_TERMUX_TTS cfg); [reflexivity|].
  destruct (has_engine cfg); reflexivity.
Qed.

Lemma open_url_run (cfg : config) (url : string) (w : world) :
  open_url cfg url w =
    MkRun [if HAS_TERMUX_OPEN cfg then Popen ["termux-open-url"; url]
           else WebbrowserOpen url] w (Return tt).
Proof. unfold open_url. destruct (HAS_TERMUX_OPEN cfg); reflexivity. Qed.

Lemma opened_open_url (cfg : config) (url : string) :
  opened [if HAS_TERMUX_OPEN cfg then Popen ["termux-open-url"; url]
          else WebbrowserOpen url] = [url].
Proof. destruct (HAS_TERMUX_OPEN cfg); reflexivity. Qed.

(** *** The default rule *)

(** C5 as stated fails when the utterance has white space at an end: the
    text is stripped before it is matched and searched, so for " play some
    music" the query is "play+some+music", not "+play+some+music". *)
Lemma fallback_query_is_stripped :
  no_rule (lower " play some music") = true
  /\ no_rule (normalise " play some music") = true
  /\ opened (trace (handle_command cfg_plain (Some " play some music")
                      (world_at (at_time 9 0 0) [])))
     = ["https://www.google.com/search?q=play+some+music"]
  /\ search_url (lower " play some music")
     = "https://www.google.com/search?q=+play+some+music"
  /\ opened (trace (handle_command cfg_plain (Some " play some music")
                      (world_at (at_time 9 0 0) [])))
     <> [search_url (lower " play some music")].
Proof. repeat split. discriminate. Qed.

(** C5, amended.  For a non-empty utterance whose normalised text (lowered,
    then stripped of white space at both ends) matches none of the rules,
    [handle_command] prints what it heard, speaks the notice that no command
    was recognised, and then opens exactly one URL: the web search whose
    query is the normalised text with each space replaced by "+". *)
Theorem fallback_searches_once (cfg : config) (w : world) (text : string) :
  truthy text = true -> no_rule (normalise text) = true ->
  handle_command cfg (Some text) w =
    MkRun (Print ("Heard: " +:+ normalise text)
             :: said cfg (fallback_notice (normalise text))
             ++ [if HAS_TERMUX_OPEN cfg
                 then Popen ["termux-open-url"; search_url (normalise text)]
                 else WebbrowserOpen (search_url (normalise text))])
          w (Return tt)
  /\ opened (trace (handle_command cfg (Some text) w))
     = ["https://www.google.com/search?q=" +:+ replace_char " " "+" (normalise text)].
Proof.
  intros Hne Hno. unfold no_rule in Hno. apply andb_true_iff in Hno as [Hb Hw].
  apply negb_true_iff in Hw.
  destruct (before_wikipedia_inv _ Hb) as (Hb' & Hc & Hs).
  assert (E : handle_command cfg (Some text) w =
    MkRun (Print ("Heard: " +:+ normalise text)
             :: said cfg (fallback_notice (normalise text))
             ++ [if HAS_TERMUX_OPEN cfg
                 then Popen ["termux-open-url"; search_url (normalise text)]
                 else WebbrowserOpen (search_url (normalise text))])
          w (Return tt)).
  { rewrite (skip_to_call cfg w text Hne Hb'). cbn zeta. rewrite Hc, Hs, Hw.
    rewrite bind_say, open_url_run, !after_run. reflexivity. }
  split; [exact E|]. rewrite E. cbn [trace].
  change (opened ([Print ("Heard: " +:+ normalise text)]
                    ++ said cfg (fallback_notice (normalise text))
                    ++ [if HAS_TERMUX_OPEN cfg
                        then Popen ["termux-open-url"; search_url (normalise text)]
                        else WebbrowserOpen (search_url (normalise text))])
          = [search_url (normalise text)]).
  rewrite !opened_app, opened_said, opened_open_url. reflexivity.
Qed.

Lemma fallback_searches_once_witness :
  truthy "play some music" = true /\ no_rule (normalise "play some music") = true
  /\ opened (trace (handle_command cfg_termux (Some "play some music")
                      (world_at (at_time 9 0 0) [])))
     = ["https://www.google.com/search?q=play+some+music"].
Proof.
  split; [reflexivity|]. split; [reflexivity|].
  exact (proj2 (fallback_searches_once cfg_termux (world_at (at_time 9 0 0) [])
                  "play some music" eq_refl eq_refl)).
Defined.

(** *** The encyclopedia rule *)

(** C3 as stated fails twice.  With the library present and the look-up
    failing, the failure is spoken and nothing is opened; and an utterance
    that matches the rule but also an earlier one, such as "what is the
    time", never reaches the rule, so no summary is requested. *)
Lemma failed_lookup_opens_nothing :
  has_wikipedia cfg_termux = true
  /\ wikipedia_rule (normalise "who is nobody") = true
  /\ before_wikipedia (normalise "who is nobody") = true
  /\ handle_command cfg_termux (Some "who is nobody") (world_at (at_time 9 0 0) [])
     = MkRun [Print "Heard: who is nobody";
              WikipediaSummary "nobody" 2;
              Print "Assistant: Couldn't fetch Wikipedia summary: Page id does not match any pages.";
              Popen ["termux-tts-speak";
                     "Couldn't fetch Wikipedia summary: Page id does not match any pages."]]
             (world_at (at_time 9 0 0) []) (Return tt)
  /\ opened (trace (handle_command cfg_termux (Some "who is nobody")
                      (world_at (at_time 9 0 0) []))) = []
  /\ wikipedia_rule (normalise "what is the time") = true
  /\ handle_command cfg_termux (Some "what is the time") (world_at (at_time 9 0 0) [])
     = MkRun [Print "Heard: what is the time";
              Print "Assistant: The time is 09:00 AM.";
              Popen ["termux-tts-speak"; "The time is 09:00 AM."]]
             (set_ticks 1 (world_at (at_time 9 0 0) [])) (Return tt).
Proof. repeat split. Qed.

(** C3, amended.  For a non-empty utterance whose normalised text matches
    the encyclopedia rule and none of the rules before it, the title is the
    text with every "wikipedia" removed, stripped, and without its first two
    words when it then starts with "who is " or "what is ".  With the
    library present a summary of 2 sentences is requested for the title and
    then spoken, or, when the look-up fails, the failure is spoken and no
    URL is opened.  With the library absent a notice is spoken and exactly
    one URL is opened: the encyclopedia page of the title, spaces replaced
    by "_". *)
Theorem wikipedia_rule_run (cfg : config) (w : world) (text : string) :
  truthy text = true ->
  before_wikipedia (normalise text) = true ->
  wikipedia_rule (normalise text) = true ->
  let query := wikipedia_query (normalise text) in
  let page := "https://en.wikipedia.org/wiki/" +:+ replace_char " " "_" query in
  handle_command cfg (Some text) w =
    MkRun (Print ("Heard: " +:+ normalise text) ::
           (if has_wikipedia cfg then
              WikipediaSummary query 2 ::
              said cfg (match wikipedia_summary cfg query 2 with
                        | inr summary => summary
                        | inl why => "Couldn't fetch Wikipedia summary: " +:+ why
                        end)
            else
              said cfg "Wikipedia library not installed. Opening web search."
              ++ [if HAS_TERMUX_OPEN cfg then Popen ["termux-open-url"; page]
                  else WebbrowserOpen page]))
          w (Return tt)
  /\ opened (trace (handle_command cfg (Some text) w))
     = (if has_wikipedia cfg then [] else [page])
  /\ wikipedia_query "who is albert einstein" = "albert einstein"
  /\ wikipedia_query "wikipedia alan turing" = "alan turing".
Proof.
  intros Hne Hb Hw query page.
  destruct (before_wikipedia_inv _ Hb) as (Hb' & Hc & Hs).
  assert (E : handle_command cfg (Some text) w =
    MkRun (Print ("Heard: " +:+ normalise text) ::
           (if has_wikipedia cfg then
              WikipediaSummary query 2 ::
              said cfg (match wikipedia_summary cfg query 2 with
                        | inr summary => summary
                        | inl why => "Couldn't fetch Wikipedia summary: " +:+ why
                        end)
            else
              said cfg "Wikipedia library not installed. Opening web search."
              ++ [if HAS_TERMUX_OPEN cfg then Popen ["termux-open-url"; page]
                  else WebbrowserOpen page]))
          w (Return tt)).
  { rewrite (skip_to_call cfg w text Hne Hb'). cbn zeta. rewrite Hc, Hs, Hw.
    fold query. fold page.
    destruct (has_wikipedia cfg).
    - rewrite bind_emit.
      destruct (wikipedia_summary cfg query 2);
        rewrite say_and_print_run, !after_run; reflexivity.
    - rewrite bind_say, open_url_run, !after_run. reflexivity. }
  split; [exact E|]. split; [|split; reflexivity].
  rewrite E. cbn [trace]. destruct (has_wikipedia cfg).
  - change (opened ([Print ("Heard: " +:+ normalise text);
                     WikipediaSummary query 2]
                      ++ said cfg (match wikipedia_summary cfg query 2 with
                                   | inr summary => summary
                                   | inl why => "Couldn't fetch Wikipedia summary: " +:+ why
                                   end)) = []).
    rewrite opened_app, opened_said. reflexivity.
  - change (opened ([Print ("Heard: " +:+ normalise text)]
                      ++ said cfg "Wikipedia library not installed. Opening web search."
                      ++ [if HAS_TERMUX_OPEN cfg then Popen ["termux-open-url"; page]
                          else WebbrowserOpen page]) = [page]).
    rewrite !opened_app, opened_said, opened_open_url. reflexivity.
Qed.

Lemma wikipedia_rule_run_witness :
  truthy "who is ada lovelace" = true
  /\ before_wikipedia (normalise "who is ada lovelace") = true
  /\ wikipedia_rule (normalise "who is ada lovelace") = true
  /\ opened (trace (handle_command cfg_plain (Some "who is ada lovelace")
                      (world_at (at_time 9 0 0) [])))
     = ["https://en.wikipedia.org/wiki/ada_lovelace"].
Proof.
  split; [reflexivity|]. split; [reflexivity|]. split; [reflexivity|].
  exact (proj1 (proj2 (wikipedia_rule_run cfg_plain (world_at (at_time 9 0 0) [])
                         "who is ada lovelace" eq_refl eq_refl eq_refl))).
Defined.

(** *** Events that a computation never produces *)

Section Silent.
Context (P : event -> bool).

Lemma silent_ret {A} (a : A) : silent P (ret a).
Proof. intros w; reflexivity. Qed.

Lemma silent_raise {A} (e : exn) : silent P (@raise A e).
Proof. intros w; reflexivity. Qed.

Lemma silent_lift {A} (r : exn + A) : silent P (lift r).
Proof. destruct r; intros w; reflexivity. Qed.

Lemma silent_modify (f : world -> world) : silent P (modify f).
Proof. intros w; reflexivity. Qed.

Lemma silent_now : silent P datetime_now.
Proof. intros w; reflexivity. Qed.

Lemma silent_next_capture : silent P next_capture.
Proof. intros w; unfold next_capture; destruct (mic w); reflexivity. Qed.

Lemma silent_emit (e : event) : P e = false -> silent P (emit e).
Proof. intros H w; simpl. now rewrite H. Qed.

Lemma silent_bind {A B} (m : M A) (k : A -> M B) :
  silent P m -> (forall a, silent P (k a)) -> silent P (bind m k).
Proof.
  intros Hm Hk w. unfold bind. specialize (Hm w).
  destruct (m w) as [t w' [a|e]]; simpl in *; [|exact Hm].
  rewrite existsb_app, Hm. apply Hk.
Qed.
End Silent.

Ltac walk_silent :=
  repeat lazymatch goal with
  | |- silent _ (bind _ _) => apply silent_bind; [|intros]
  | |- silent _ (ret _) => apply silent_ret
  | |- silent _ (raise _) => apply silent_raise
  | |- silent _ (lift _) => apply silent_lift
  | |- silent _ (modify _) => apply silent_modify
  | |- silent _ datetime_now => apply silent_now
  | |- silent _ next_capture => apply silent_next_capture
  | |- silent _ (emit _) => apply silent_emit; reflexivity
  | |- silent _ (if ?b then _ else _) => destruct b
  | |- silent _ (match ?x with _ => _ end) => destruct x
  end.

Ltac open_operations :=
  unfold handle_command, reminder_time, add_note, ensure_notes_dir,
    open_url, open_file_or_uri, send_sms, make_call,
    say_and_print, listen_once, tts.

(** *** The call rule *)

Lemma split_limit_0 (sep : ascii) (s : string) : split sep (Some 0%nat) s = [s].
Proof.
  induction s as [|c s IH]; [reflexivity|]. simpl.
  destruct (Ascii.eqb c sep); [reflexivity | now rewrite IH].
Qed.

Lemma call_number (txt : string) :
  call_rule txt = true ->
  exists rest, item (split " " (Some 1%nat) txt) 1 = inr rest.
Proof.
  intros H. destruct (startswith_inv _ _ H) as [r ->]. exists r.
  rewrite !append_cons, append_nil_l. simpl. now rewrite split_limit_0.
Qed.

(** C7 as stated fails for an utterance that starts with "call " and also
    triggers an earlier rule: "call christopher" contains "stop", so the
    assistant says goodbye and exits; it says nothing about the call
    feature. *)
Lemma call_christopher_exits :
  HAS_TERMUX_CALL cfg_termux = false
  /\ startswith "call " "call christopher" = true
  /\ handle_command cfg_termux (Some "call christopher") (world_at (at_time 9 0 0) [])
     = MkRun [Print "Heard: call christopher";
              Print "Assistant: Goodbye! Stopping assistant.";
              Popen ["termux-tts-speak"; "Goodbye! Stopping assistant."]]
             (world_at (at_time 9 0 0) []) (Raise (SystemExit 0))
  /\ ~ In (Print "Assistant: Call feature unavailable on this device.")
          (trace (handle_command cfg_termux (Some "call christopher")
                    (world_at (at_time 9 0 0) []))).
Proof.
  repeat split. simpl. intros [H|[H|[H|[]]]]; discriminate H.
Qed.

(** C7, amended.  When the call capability is absent, no run of
    [handle_command] ever starts the call tool, whatever the utterance; and
    for a non-empty utterance whose normalised text starts with "call " and
    triggers none of the seven rules before the call rule, all that happens
    is that the unavailability of the call feature is printed and spoken. *)
Theorem call_gated (cfg : config) :
  HAS_TERMUX_CALL cfg = false ->
  (forall (text : option string) (w : world),
      existsb is_call (trace (handle_command cfg text w)) = false)
  /\ (forall (text : string) (w : world),
        truthy text = true ->
        before_call (normalise text) = true ->
        call_rule (normalise text) = true ->
        handle_command cfg (Some text) w =
          MkRun (Print ("Heard: " +:+ normalise text)
                   :: said cfg "Call feature unavailable on this device.")
                w (Return tt)).
Proof.
  intros Hcall. split.
  - intros text. change (silent is_call (handle_command cfg text)).
    open_operations. unfold schedule_reminder. rewrite Hcall. walk_silent.
  - intros text w Hne Hb Hc.
    rewrite (skip_to_call cfg w text Hne Hb). cbn zeta. rewrite Hc.
    destruct (call_number _ Hc) as [rest ->].
    unfold make_call. rewrite Hcall. cbn [lift].
    rewrite !bind_ret, say_and_print_run, after_run. reflexivity.
Qed.

Lemma call_gated_witness :
  HAS_TERMUX_CALL cfg_termux = false
  /\ truthy "call 555 0100" = true
  /\ before_call (normalise "call 555 0100") = true
  /\ call_rule (normalise "call 555 0100") = true
  /\ handle_command cfg_termux (Some "call 555 0100") (world_at (at_time 9 0 0) [])
     = MkRun [Print "Heard: call 555 0100";
              Print "Assistant: Call feature unavailable on this device.";
              Popen ["termux-tts-speak"; "Call feature unavailable on this device."]]
             (world_at (at_time 9 0 0) []) (Return tt).
Proof.
  split; [reflexivity|]. split; [reflexivity|]. split; [reflexivity|].
  split; [reflexivity|].
  exact (proj2 (call_gated cfg_termux eq_refl) "call 555 0100"
               (world_at (at_time 9 0 0) []) eq_refl eq_refl eq_refl).
Defined.

(** *** The reminder list *)






























(** Scheduling happens at most once in a dispatch. *)






(** *** The reminder dialogue *)

Lemma int_exception (s : string) (e : exn) : int s = inl e -> is_Exception e = true.
Proof. apply int_of_code_points_exception. Qed.

Lemma item_exception (l : list string) (i : nat) (e : exn) :
  item l i = inl e -> is_Exception e = true.
Proof. unfold item. destruct (nth_error l i); intros H; inversion H; reflexivity. Qed.

Lemma replace_time_exception (now : datetime) (hh mm : Z) (e : exn) :
  replace_time now hh mm = inl e -> is_Exception e = true.
Proof.
  unfold replace_time.
  destruct (negb ((0 <=? hh) && (hh <=? 23))); [intros H; inversion H; reflexivity|].
  destruct (negb ((0 <=? mm) && (mm <=? 59))); intros H; inversion H; reflexivity.
Qed.

Lemma unpack_hh_mm_exception (parts : list string) (e : exn) :
  unpack_hh_mm parts = inl e -> is_Exception e = true.
Proof.
  unfold unpack_hh_mm.
  destruct parts as [|a [|b [|c rest]]];
    repeat lazymatch goal with
    | |- context [match int ?s with _ => _ end] =>
        let E := fresh "E" in destruct (int s) eqn:E
    end;
    intros H; inversion H; subst;
    first [reflexivity | eapply int_exception; eassumption].
Qed.

(** Every exception of the [try] block is an [Exception], so the handler
    catches it. *)
Lemma parse_when_exception (now : datetime) (l l' : locals) (e : exn) :
  parse_when now l = (l', inl e) -> is_Exception e = true.
Proof.
  unfold parse_when, pbind, read_when, plift, pret, assign_when, assign_n,
    assign_rem_time.
  repeat lazymatch goal with
  | |- context [plus_timedelta ?a ?d ?h ?m] =>
      rewrite (plus_timedelta_unbound a d h m)
  | |- context [match digits_or_0 ?s with _ => _ end] =>
      let E := fresh "E" in destruct (digits_or_0 s) eqn:E
  | |- context [match item ?x ?i with _ => _ end] =>
      let E := fresh "E" in destruct (item x i) eqn:E
  | |- context [match unpack_hh_mm ?x with _ => _ end] =>
      let E := fresh "E" in destruct (unpack_hh_mm x) eqn:E
  | |- context [match replace_time ?a ?b ?c with _ => _ end] =>
      let E := fresh "E" in destruct (replace_time a b c) eqn:E
  | |- context [if ?b then _ else _] => destruct b
  end;
  intros H; inversion H; subst;
  first [ reflexivity
        | eapply digits_or_0_exception; eassumption
        | eapply item_exception; eassumption
        | eapply unpack_hh_mm_exception; eassumption
        | eapply replace_time_exception; eassumption ].
Qed.

Lemma reminder_time_run (now : datetime) (when : string) (w : world) :
  reminder_time now when w = MkRun (parse_complaint now when) w (Return (parsed now when)).
Proof.
  unfold reminder_time, parsed, parse_complaint, entry.
  destruct (parse_when now {| v_when := when; v_n := None; v_rem_time := None |})
    as [l [e|[]]] eqn:E; [|reflexivity].
  rewrite (parse_when_exception _ _ _ _ E). reflexivity.
Qed.

Lemma bind_now {B} (k : datetime -> M B) (w : world) :
  bind datetime_now k w = k (clock w (ticks w)) (set_ticks (S (ticks w)) w).
Proof.
  unfold bind, datetime_now; simpl.
  destruct (k (clock w (ticks w)) (set_ticks (S (ticks w)) w)); reflexivity.
Qed.

Lemma bind_modify {B} (f : world -> world) (k : unit -> M B) (w : world) :
  bind (modify f) k w = k tt (f w).
Proof. unfold bind, modify; simpl. destruct (k tt (f w)); reflexivity. Qed.

Lemma schedule_reminder_run (t : datetime) (msg : string) (w : world) :
  schedule_reminder t msg w =
    MkRun [ThreadStart t msg] (set_REMINDERS (REMINDERS w ++ [(t, msg)]) w) (Return tt).
Proof. reflexivity. Qed.

Lemma before_remind_inv (txt : string) :
  before_remind txt = true ->
  stop_rule txt = false /\ time_rule txt = false /\ date_rule txt = false
  /\ search_rule txt = false /\ open_rule txt = false /\ note_rule txt = false.
Proof.
  unfold before_remind.
  destruct (stop_rule txt); [discriminate|].
  destruct (time_rule txt); [discriminate|].
  destruct (date_rule txt); [discriminate|].
  destruct (search_rule txt); [discriminate|].
  destruct (open_rule txt); [discriminate|].
  destruct (note_rule txt); [discriminate|].
  tauto.
Qed.

(** The whole run of a dispatch that reaches the reminder rule, given what
    the two captures of the dialogue deliver. *)
Lemma remind_run (cfg : config) (text : string) (w w1 w2 : world)
      (t1 t2 : list event) (h1 h2 : option string) :
  truthy text = true ->
  before_remind (normalise text) = true ->
  remind_rule (normalise text) = true ->
  listen_once cfg 6 8 w = MkRun t1 w1 (Return h1) ->
  listen_once cfg 6 8 w1 = MkRun t2 w2 (Return h2) ->
  let when := or_else h1 "" in
  let message := or_else h2 "Reminder" in
  let now := clock w2 (ticks w2) in
  handle_command cfg (Some text) w =
    MkRun
      ([Print ("Heard: " +:+ normalise text)]
       ++ said cfg "Okay, when should I remind you? (say in 10 minutes / at 18:30 / in 1 hour)"
       ++ t1
       ++ said cfg "What is the reminder message?"
       ++ t2
       ++ parse_complaint now when
       ++ match parsed now when with
          | Some rem_time =>
              ThreadStart rem_time message
                :: said cfg ("Reminder set for " +:+ isoformat rem_time)
          | None => said cfg "Couldn't parse time. Reminder not set."
          end)
      (match parsed now when with
       | Some rem_time =>
           set_REMINDERS (REMINDERS w2 ++ [(rem_time, message)])
                         (set_ticks (S (ticks w2)) w2)
       | None => set_ticks (S (ticks w2)) w2
       end)
      (Return tt).
Proof.
  intros Hne Hb Hr H1 H2 when message now.
  destruct (before_remind_inv _ Hb) as (G1 & G2 & G3 & G4 & G5 & G6).
  unfold handle_command. rewrite Hne. cbn [negb]. cbn zeta.
  rewrite bind_emit, G1, G2, G3, G4, G5, G6, Hr.
  rewrite bind_say, (bind_run _ _ _ _ _ _ H1), bind_say.
  rewrite (bind_run _ _ _ _ _ _ H2), bind_now.
  rewrite (bind_run _ _ _ _ _ _ (reminder_time_run _ _ _)).
  fold when message now.
  destruct (parsed now when) as [rem_time|].
  - rewrite (bind_run _ _ _ _ _ _ (schedule_reminder_run _ _ _)), say_and_print_run.
    rewrite !after_run. reflexivity.
  - rewrite say_and_print_run, !after_run. reflexivity.
Qed.















Lemma drop_3_in (rest : string) : drop 3 ("in " +:+ rest) = rest.
Proof. reflexivity. Qed.

Lemma parsed_in (now : datetime) (rest : string) : parsed now ("in " +:+ rest) = None.
Proof.
  unfold parsed, parse_when, entry, pbind, read_when, assign_when, assign_n,
    assign_rem_time, plift, pret.
  cbn [v_when v_n v_rem_time].
  rewrite startswith_append, drop_3_in.
  destruct (contains "minute" (strip rest)).
  - destruct (digits_or_0 (strip rest)); [reflexivity|].
    rewrite plus_timedelta_unbound. reflexivity.
  - destruct (contains "hour" (strip rest)); [|reflexivity].
    destruct (digits_or_0 (strip rest)); [reflexivity|].
    rewrite plus_timedelta_unbound. reflexivity.
Qed.

(** C1 on the code.  The name [timedelta] is never bound (only [datetime] is
    imported from the module [datetime]), so every addition of a
    [timedelta] raises [NameError] inside the [try], whose handler prints it
    and resets [rem_time].  Hence no phrase "in ..." ever yields a time: for
    "in 10 minutes" and "in 1 hour" the handler prints the [NameError], no
    thread is started, the list of reminders stays empty and the failure
    notice is spoken, where the claim expects a reminder at T+10 minutes
    (17:10 when T is 17:00).  "at 18:30" yields today 18:30 when that is not
    before the current time, and no time at all (again by [NameError]) when
    it is; "tomorrow" yields no time and no complaint. *)
Theorem in_phrase_never_schedules (now : datetime) :
  (forall rest : string, parsed now ("in " +:+ rest) = None)
  /\ parse_complaint now "in 10 minutes"
     = [PrintError "Reminder parse error:" (NameError "timedelta")]
  /\ parse_complaint now "in 1 hour"
     = [PrintError "Reminder parse error:" (NameError "timedelta")]
  /\ handle_command cfg_termux (Some "remind me")
       (world_at now [Heard "in 10 minutes"; Heard "check the oven"])
     = MkRun
         [Print "Heard: remind me";
          Print "Assistant: Okay, when should I remind you? (say in 10 minutes / at 18:30 / in 1 hour)";
          Popen ["termux-tts-speak";
                 "Okay, when should I remind you? (say in 10 minutes / at 18:30 / in 1 hour)"];
          SubprocessRun ["termux-speech-to-text"];
          Print "Assistant: What is the reminder message?";
          Popen ["termux-tts-speak"; "What is the reminder message?"];
          SubprocessRun ["termux-speech-to-text"];
          PrintError "Reminder parse error:" (NameError "timedelta");
          Print "Assistant: Couldn't parse time. Reminder not set.";
          Popen ["termux-tts-speak"; "Couldn't parse time. Reminder not set."]]
         (set_ticks 1 (world_at now []))
         (Return tt)
  /\ match make_timedelta 0 0 10 with
     | inr delta => add (at_time 17 0 0) delta
     | inl e => inl e
     end = inr (at_time 17 10 0)
  /\ parsed now "at 18:30"
     = (let today_1830 := {| year := year now; month := month now; day := day now;
                             hour := 18; minute := 30; second := 0; microsecond := 0 |} in
        if ltb today_1830 now then None else Some today_1830)
  /\ parsed (at_time 17 0 0) "at 18:30" = Some (at_time 18 30 0)
  /\ parsed (at_time 19 0 0) "at 18:30" = None
  /\ parse_complaint (at_time 19 0 0) "at 18:30"
     = [PrintError "Reminder parse error:" (NameError "timedelta")]
  /\ parsed now "tomorrow" = None
  /\ parse_complaint now "tomorrow" = [].
Proof.
  split; [intros rest; apply parsed_in|].
  split; [reflexivity|]. split; [reflexivity|]. split; [reflexivity|].
  split; [reflexivity|].
  split.
  { unfold parsed, parse_when, entry, pbind, read_when, assign_when, assign_n,
      assign_rem_time, plift, pret.
    cbn -[ltb plus_timedelta int].
    change (int "18") with (@inr exn Z 18). change (int "30") with (@inr exn Z 30).
    cbn -[ltb plus_timedelta].
    destruct (ltb _ now); [rewrite plus_timedelta_unbound|]; reflexivity. }
  repeat split.
Qed.

(* ===================================================================== *)
(** ** Further properties of the dispatcher and the loop *)
(* ===================================================================== *)

(** *** Splitting at the first space *)

Lemma contains_char_cons (x c : ascii) (r : string) :
  contains (String x "") (String c r) = Ascii.eqb x c || contains (String x "") r.
Proof. simpl. destruct (Ascii.eqb x c); reflexivity. Qed.

Lemma split_once_cons (c : ascii) (r : string) :
  split " " (Some 1%nat) (String c r) =
    if Ascii.eqb c " " then [EmptyString; r]
    else match split " " (Some 1%nat) r with
         | w :: ws => String c w :: ws
         | [] => [String c EmptyString]
         end.
Proof.
  cbn [split]. destruct (Ascii.eqb c " "); [|reflexivity].
  now rewrite split_limit_0.
Qed.

Lemma item_split_space (s : string) :
  contains " " s = true ->
  exists r, item (split " " (Some 1%nat) s) 1 = inr r.
Proof.
  induction s as [|c s IH]; [discriminate|].
  rewrite contains_char_cons, split_once_cons, (Ascii.eqb_sym c " ").
  destruct (Ascii.eqb " " c); cbn [orb].
  - intros _. now exists s.
  - intros H. destruct (IH H) as [r Hr].
    destruct (split " " (Some 1%nat) s) as [|a [|b l]]; try discriminate Hr.
    now exists r.
Qed.

Lemma startswith_space (p s : string) :
  contains " " p = true -> startswith p s = true -> contains " " s = true.
Proof.
  intros Hp H. destruct (startswith_inv _ _ H) as [r ->].
  destruct (contains_inv _ _ Hp) as (a & b & ->).
  rewrite !append_assoc. apply contains_append.
Qed.

Lemma lstrip_suffix (s : string) : exists a, s = a +:+ lstrip s.
Proof.
  induction s as [|c s [a IH]]; [now exists ""|]. simpl.
  destruct (isspace c); [|now exists ""].
  exists (String c a). rewrite append_cons. now rewrite <- IH.
Qed.

Lemma rstrip_prefix (s : string) : exists b, s = rstrip s +:+ b.
Proof.
  induction s as [|c s [b IH]]; [now exists ""|]. simpl.
  destruct (rstrip s) eqn:E.
  - destruct (isspace c); [now exists (String c s)|].
    exists s. reflexivity.
  - exists b. rewrite append_cons. now rewrite <- IH.
Qed.

Lemma contains_of_strip (w s : string) :
  contains w (strip s) = true -> contains w s = true.
Proof.
  intros H. destruct (contains_inv _ _ H) as (a & b & E).
  destruct (lstrip_suffix s) as [x Hx]. destruct (rstrip_prefix (lstrip s)) as [y Hy].
  unfold strip in E. rewrite Hx, Hy, E.
  replace (x +:+ (a +:+ w +:+ b) +:+ y) with ((x +:+ a) +:+ w +:+ (b +:+ y))
    by (rewrite !append_assoc; reflexivity).
  apply contains_append.
Qed.

Lemma lower_char_space (c : ascii) :
  Ascii.eqb " " (lower_char c) = Ascii.eqb " " c.
Proof. destruct c as [[] [] [] [] [] [] [] []]; reflexivity. Qed.

Lemma space_of_lower (s : string) :
  contains " " (lower s) = true -> contains " " s = true.
Proof.
  induction s as [|c s IH]; [discriminate|].
  change (lower (String c s)) with (String (lower_char c) (lower s)).
  rewrite !contains_char_cons, lower_char_space.
  destruct (Ascii.eqb " " c); [reflexivity | exact IH].
Qed.

Lemma space_of_normalise (p text : string) :
  contains " " p = true -> startswith p (normalise text) = true ->
  contains " " text = true.
Proof.
  intros Hp H. apply space_of_lower, contains_of_strip.
  exact (startswith_space _ _ Hp H).
Qed.

Lemma either_startswith_space (p q s : string) :
  contains " " p = true -> contains " " q = true ->
  startswith p s || startswith q s = true -> contains " " s = true.
Proof.
  intros Hp Hq H. apply orb_true_iff in H as [H|H].
  - exact (startswith_space p s Hp H).
  - exact (startswith_space q s Hq H).
Qed.

Lemma item_in_range (l : list string) :
  (4 <=? length l)%nat = true -> exists r, item l 3 = inr r.
Proof.
  intros H. apply Nat.leb_le in H.
  destruct l as [|a [|b [|c [|d l]]]]; simpl in H; try lia.
  now exists d.
Qed.

(** *** Look-ups that are in range *)

Lemma index_safe_ret {A} (a : A) : index_safe (ret a).
Proof. intros w d; discriminate. Qed.

Lemma index_safe_emit (e : event) : index_safe (emit e).
Proof. intros w d; discriminate. Qed.

Lemma index_safe_modify (f : world -> world) : index_safe (modify f).
Proof. intros w d; discriminate. Qed.

Lemma index_safe_now : index_safe datetime_now.
Proof. intros w d; discriminate. Qed.

Lemma index_safe_next_capture : index_safe next_capture.
Proof. intros w d; unfold next_capture; destruct (mic w); discriminate. Qed.

Lemma index_safe_raise {A} (e : exn) :
  match e with IndexError _ => False | _ => True end -> index_safe (@raise A e).
Proof. intros He w d H. injection H as ->. exact He. Qed.

Lemma index_safe_reminder_time (now : datetime) (when : string) :
  index_safe (reminder_time now when).
Proof. intros w d. rewrite reminder_time_run. discriminate. Qed.

Lemma index_safe_bind {A B} (m : M A) (k : A -> M B) :
  index_safe m -> (forall a, index_safe (k a)) -> index_safe (bind m k).
Proof.
  intros Hm Hk w d. unfold bind. specialize (Hm w d).
  destruct (m w) as [t w' [a|e]]; cbn [value] in *; [apply Hk|].
  intros H. apply Hm. injection H as ->. reflexivity.
Qed.

Lemma index_safe_item {B} (l : list string) (i : nat) (k : string -> M B) :
  (exists r, item l i = inr r) -> (forall a, index_safe (k a)) ->
  index_safe (bind (lift (item l i)) k).
Proof.
  intros [r Hr] Hk. rewrite Hr. apply index_safe_bind; [apply index_safe_ret | exact Hk].
Qed.

Lemma index_safe_lift_item (l : list string) (i : nat) :
  (exists r, item l i = inr r) -> index_safe (lift (item l i)).
Proof. intros [r Hr]. rewrite Hr. apply index_safe_ret. Qed.

Ltac lookup_succeeds :=
  first
    [ apply item_in_range; assumption
    | apply item_split_space;
      first
        [ assumption
        | eapply (either_startswith_space "search " "google "); [reflexivity..|eassumption]
        | eapply (either_startswith_space "open " "launch "); [reflexivity..|eassumption]
        | eapply (startswith_space "call "); [reflexivity|eassumption]
        | eapply (space_of_normalise "note "); [reflexivity|eassumption] ] ].

Ltac walk_index_safe :=
  repeat lazymatch goal with
  | |- index_safe (bind (lift (item _ _)) _) =>
      apply index_safe_item; [lookup_succeeds | intros]
  | |- index_safe (lift (item _ _)) => apply index_safe_lift_item; lookup_succeeds
  | |- index_safe (bind _ _) => apply index_safe_bind; [|intros]
  | |- index_safe (ret _) => apply index_safe_ret
  | |- index_safe (raise _) => apply index_safe_raise; exact I
  | |- index_safe (emit _) => apply index_safe_emit
  | |- index_safe (modify _) => apply index_safe_modify
  | |- index_safe datetime_now => apply index_safe_now
  | |- index_safe next_capture => apply index_safe_next_capture
  | |- index_safe (reminder_time _ _) => apply index_safe_reminder_time
  | |- index_safe (if ?b then _ else _) => destruct b eqn:?
  | |- index_safe (match ?x with _ => _ end) => destruct x
  end.

Ltac open_callees :=
  unfold add_note, ensure_notes_dir, schedule_reminder, open_url,
    open_file_or_uri, send_sms, make_call, say_and_print, listen_once, tts.

Lemma index_safe_handle_command (cfg : config) (text : option string) :
  index_safe (handle_command cfg text).
Proof.
  destruct text as [text|]; [|apply index_safe_ret].
  unfold handle_command, search_rule, open_rule, call_rule.
  cbn zeta. open_callees. walk_index_safe.
Qed.

Lemma index_safe_main_loop_body (cfg : config) : index_safe (main_loop_body cfg).
Proof.
  unfold main_loop_body.
  apply index_safe_bind; [open_callees; walk_index_safe|].
  intros [spoken|]; [|apply index_safe_ret].
  destruct (negb (truthy spoken)); [apply index_safe_ret|].
  cbn zeta. destruct (any_in WAKE_WORDS (lower spoken)).
  - apply index_safe_bind; [open_callees; walk_index_safe|intros].
    apply index_safe_bind; [open_callees; walk_index_safe|intros].
    apply index_safe_handle_command.
  - destruct (startswith "assistant" (lower spoken) || startswith "jarvis" (lower spoken));
      [|apply index_safe_ret].
    apply index_safe_bind; [|intros; apply index_safe_handle_command].
    walk_index_safe.
Qed.

(** X1.  No look-up of the program is out of range.  Where the dispatcher
    takes [split(" ", 1)[1]] the text that is split contains a space: the
    normalised text under the search, open and call rules, and the text as
    it was received, before lowering and stripping, under the note rule;
    [parts[3]] is taken only of four parts or more; the loop splits only a
    phrase with a space.  So, whatever the utterance, the configuration,
    the world and the backend's answers, neither a dispatch nor a turn of
    the loop ends by [IndexError]. *)
Theorem handle_command_outcome (cfg : config) (text : string) :
  (search_rule (normalise text) || open_rule (normalise text)
   || call_rule (normalise text) = true ->
   exists r, item (split " " (Some 1%nat) (normalise text)) 1 = inr r)
  /\ (startswith "note " (normalise text) = true ->
      exists r, item (split " " (Some 1%nat) text) 1 = inr r)
  /\ (forall parts : list string,
        (4 <=? length parts)%nat = true -> exists r, item parts 3 = inr r)
  /\ (contains " " text = true ->
      exists r, item (split " " (Some 1%nat) text) 1 = inr r)
  /\ (forall (heard : option string) (w : world) (d : string),
        value (handle_command cfg heard w) <> Raise (IndexError d)
        /\ value (main_loop_body cfg w) <> Raise (IndexError d)).
Proof.
  split; [|split; [|split; [|split]]].
  - unfold search_rule, open_rule, call_rule. intros H.
    apply orb_true_iff in H as [H|H]; [apply orb_true_iff in H as [H|H]|];
      lookup_succeeds.
  - intros H. lookup_succeeds.
  - intros parts H. lookup_succeeds.
  - intros H. lookup_succeeds.
  - intros heard w d. split;
      [apply index_safe_handle_command | apply index_safe_main_loop_body].
Qed.

Lemma handle_command_outcome_witness :
  exists r, item (split " " (Some 1%nat) "  NOTE buy  milk ") 1 = inr r.
Proof.
  exact (proj1 (proj2 (handle_command_outcome cfg_plain "  NOTE buy  milk ")) eq_refl).
Defined.

(** *** The rules one by one *)

Lemma before_search_inv (txt : string) :
  before_search txt = true ->
  stop_rule txt = false /\ time_rule txt = false /\ date_rule txt = false.
Proof.
  unfold before_search.
  destruct (stop_rule txt); [discriminate|].
  destruct (time_rule txt); [discriminate|].
  destruct (date_rule txt); [discriminate|]. tauto.
Qed.

Lemma before_open_inv (txt : string) :
  before_open txt = true -> before_search txt = true /\ search_rule txt = false.
Proof.
  unfold before_open. destruct (before_search txt); [|discriminate].
  destruct (search_rule txt); [discriminate | tauto].
Qed.

Lemma before_note_inv (txt : string) :
  before_note txt = true -> before_open txt = true /\ open_rule txt = false.
Proof.
  unfold before_note. destruct (before_open txt); [|discriminate].
  destruct (open_rule txt); [discriminate | tauto].
Qed.

Lemma isspace_lower_char (c : ascii) : isspace (lower_char c) = isspace c.
Proof. destruct c as [[] [] [] [] [] [] [] []]; reflexivity. Qed.

Lemma normalise_blank (text : string) : all isspace text = true -> normalise text = "".
Proof.
  unfold normalise, strip. intros H.
  assert (E : lstrip (lower text) = "").
  { induction text as [|c text IH]; [reflexivity|]. simpl in *.
    apply andb_true_iff in H as [Hc Ht]. rewrite isspace_lower_char, Hc. auto. }
  now rewrite E.
Qed.

(** X3.  [None] and the empty text are ignored without a trace.  A text that
    is not empty but consists of white space only is not ignored: it
    normalises to the empty text, which matches no rule, so the assistant
    says it caught no command and opens a web search with an empty query. *)
Theorem blank_utterance (cfg : config) (w : world) (text : string) :
  truthy text = true -> all isspace text = true ->
  handle_command cfg None w = MkRun [] w (Return tt)
  /\ handle_command cfg (Some "") w = MkRun [] w (Return tt)
  /\ handle_command cfg (Some text) w =
       MkRun (Print "Heard: " :: said cfg (fallback_notice "")
                ++ [if HAS_TERMUX_OPEN cfg
                    then Popen ["termux-open-url"; "https://www.google.com/search?q="]
                    else WebbrowserOpen "https://www.google.com/search?q="])
             w (Return tt).
Proof.
  intros Hne Hb. split; [reflexivity|]. split; [reflexivity|].
  rewrite (skip_to_call cfg w text Hne) by (now rewrite (normalise_blank _ Hb)).
  rewrite (normalise_blank _ Hb). cbn zeta.
  change (call_rule "") with false. change (sms_rule "") with false.
  change (wikipedia_rule "") with false. cbn iota.
  rewrite bind_say, open_url_run, !after_run. reflexivity.
Qed.

Lemma blank_utterance_witness :
  handle_command cfg_plain (Some "   ") (world_at (at_time 9 0 0) [])
  = MkRun (Print "Heard: " :: said cfg_plain (fallback_notice "")
             ++ [WebbrowserOpen "https://www.google.com/search?q="])
          (world_at (at_time 9 0 0) []) (Return tt).
Proof.
  exact (proj2 (proj2 (blank_utterance cfg_plain (world_at (at_time 9 0 0) [])
                         "   " eq_refl eq_refl))).
Defined.

(** X4.  A text containing "time" and no stop word is answered with the
    clock in 12-hour form, whatever later rule it also matches ("remind me
    at dinner time" does not start the reminder dialogue); a text containing
    "date", and neither a stop word nor "time", is answered with the date.
    Either way the clock is read once and nothing else happens. *)
Theorem clock_rules (cfg : config) (w : world) (text : string) :
  truthy text = true -> stop_rule (normalise text) = false ->
  (time_rule (normalise text) = true ->
   handle_command cfg (Some text) w =
     MkRun (Print ("Heard: " +:+ normalise text)
              :: said cfg ("The time is " +:+ strftime_I_M_p (clock w (ticks w)) +:+ "."))
           (set_ticks (S (ticks w)) w) (Return tt))
  /\ (time_rule (normalise text) = false -> date_rule (normalise text) = true ->
      handle_command cfg (Some text) w =
        MkRun (Print ("Heard: " +:+ normalise text)
                 :: said cfg ("Today's date is " +:+ date_isoformat (clock w (ticks w))))
              (set_ticks (S (ticks w)) w) (Return tt)).
Proof.
  intros Hne Hs. split.
  - intros Ht. unfold handle_command. rewrite Hne. cbn [negb]. cbn zeta.
    rewrite bind_emit, Hs, Ht, bind_now, say_and_print_run, after_run. reflexivity.
  - intros Ht Hd. unfold handle_command. rewrite Hne. cbn [negb]. cbn zeta.
    rewrite bind_emit, Hs, Ht, Hd, bind_now, say_and_print_run, after_run. reflexivity.
Qed.

Lemma clock_rules_witness :
  remind_rule (normalise "remind me at dinner time") = true
  /\ handle_command cfg_plain (Some "remind me at dinner time")
       (world_at (at_time 13 5 0) [])
     = MkRun [Print "Heard: remind me at dinner time";
              Print "Assistant: The time is 01:05 PM.";
              Print "[TTS unavailable] The time is 01:05 PM."]
             (set_ticks 1 (world_at (at_time 13 5 0) [])) (Return tt).
Proof.
  split; [reflexivity|].
  exact (proj1 (clock_rules cfg_plain (world_at (at_time 13 5 0) [])
                  "remind me at dinner time" eq_refl eq_refl) eq_refl).
Defined.

Lemma split_at_space (p r : string) :
  contains " " p = false ->
  split " " (Some 1%nat) (p +:+ String " " r) = [p; r].
Proof.
  induction p as [|c p IH]; intros H.
  - rewrite append_nil_l, split_once_cons. reflexivity.
  - rewrite contains_char_cons in H. apply orb_false_iff in H as [Hc Hp].
    rewrite append_cons, split_once_cons, (Ascii.eqb_sym c " "), Hc, (IH Hp).
    reflexivity.
Qed.

Lemma search_rule_query (txt : string) :
  search_rule txt = true ->
  item (split " " (Some 1%nat) txt) 1 = inr (drop 7 txt).
Proof.
  unfold search_rule. intros H. apply orb_true_iff in H as [H|H];
    destruct (startswith_inv _ _ H) as [r ->].
  - change ("search " +:+ r) with ("search" +:+ String " " r).
    now rewrite split_at_space.
  - change ("google " +:+ r) with ("google" +:+ String " " r).
    now rewrite split_at_space.
Qed.

(** X5.  For a non-empty utterance whose normalised text starts with
    "search " or "google " and contains no stop word, "time" or "date", the
    assistant announces the search and opens exactly one URL: the web
    search for everything after the first word, spaces replaced by "+". *)
Theorem search_rule_run (cfg : config) (w : world) (text : string) :
  truthy text = true ->
  before_search (normalise text) = true ->
  search_rule (normalise text) = true ->
  let q := drop 7 (normalise text) in
  handle_command cfg (Some text) w =
    MkRun (Print ("Heard: " +:+ normalise text)
             :: said cfg ("Searching the web for " +:+ q)
             ++ [if HAS_TERMUX_OPEN cfg then Popen ["termux-open-url"; search_url q]
                 else WebbrowserOpen (search_url q)])
          w (Return tt)
  /\ opened (trace (handle_command cfg (Some text) w))
     = ["https://www.google.com/search?q=" +:+ replace_char " " "+" q].
Proof.
  intros Hne Hb Hs q.
  destruct (before_search_inv _ Hb) as (G1 & G2 & G3).
  assert (E : handle_command cfg (Some text) w =
    MkRun (Print ("Heard: " +:+ normalise text)
             :: said cfg ("Searching the web for " +:+ q)
             ++ [if HAS_TERMUX_OPEN cfg then Popen ["termux-open-url"; search_url q]
                 else WebbrowserOpen (search_url q)])
          w (Return tt)).
  { unfold handle_command. rewrite Hne. cbn [negb]. cbn zeta.
    rewrite bind_emit, G1, G2, G3, Hs, (search_rule_query _ Hs). cbn [lift].
    rewrite bind_ret, bind_say, open_url_run, !after_run. reflexivity. }
  split; [exact E|]. rewrite E. cbn [trace].
  change (opened ([Print ("Heard: " +:+ normalise text)]
                    ++ said cfg ("Searching the web for " +:+ q)
                    ++ [if HAS_TERMUX_OPEN cfg then Popen ["termux-open-url"; search_url q]
                        else WebbrowserOpen (search_url q)]) = [search_url q]).
  rewrite !opened_app, opened_said, opened_open_url. reflexivity.
Qed.

Lemma search_rule_run_witness :
  opened (trace (handle_command cfg_termux (Some "Google Rocq proof assistant")
                   (world_at (at_time 9 0 0) [])))
  = ["https://www.google.com/search?q=rocq+proof+assistant"].
Proof.
  exact (proj2 (search_rule_run cfg_termux (world_at (at_time 9 0 0) [])
                  "Google Rocq proof assistant" eq_refl eq_refl eq_refl)).
Defined.

Lemma open_rule_target (txt : string) :
  open_rule txt = true ->
  item (split " " (Some 1%nat) txt) 1
  = inr (if startswith "open " txt then drop 5 txt else drop 7 txt).
Proof.
  unfold open_rule. intros H.
  destruct (startswith "open " txt) eqn:Ho.
  - destruct (startswith_inv _ _ Ho) as [r ->].
    change ("open " +:+ r) with ("open" +:+ String " " r).
    now rewrite split_at_space.
  - cbn [orb] in H. destruct (startswith_inv _ _ H) as [r ->].
    change ("launch " +:+ r) with ("launch" +:+ String " " r).
    now rewrite split_at_space.
Qed.

(** X6.  For a non-empty utterance whose normalised text starts with "open "
    or "launch " and triggers no earlier rule, the assistant announces the
    target (the text after the first word) and opens exactly one thing: the
    target itself as a URL when it starts with "http"; "http://" followed by
    the target when it contains a dot and no space; otherwise the target is
    handed to the generic opener ([termux-open], or the browser without
    Termux). *)
Theorem open_rule_run (cfg : config) (w : world) (text : string) :
  truthy text = true ->
  before_open (normalise text) = true ->
  open_rule (normalise text) = true ->
  let txt := normalise text in
  let target := if startswith "open " txt then drop 5 txt else drop 7 txt in
  handle_command cfg (Some text) w =
    MkRun (Print ("Heard: " +:+ txt)
             :: said cfg ("Opening " +:+ target)
             ++ [if startswith "http" target then
                   (if HAS_TERMUX_OPEN cfg then Popen ["termux-open-url"; target]
                    else WebbrowserOpen target)
                 else if contains "." target && negb (contains " " target) then
                   (if HAS_TERMUX_OPEN cfg
                    then Popen ["termux-open-url"; "http://" +:+ target]
                    else WebbrowserOpen ("http://" +:+ target))
                 else
                   (if HAS_TERMUX_OPEN cfg then Popen ["termux-open"; target]
                    else WebbrowserOpen target)])
          w (Return tt).
Proof.
  intros Hne Hb Ho. cbv zeta.
  destruct (before_open_inv _ Hb) as (Hb' & G4).
  destruct (before_search_inv _ Hb') as (G1 & G2 & G3).
  unfold handle_command. rewrite Hne. cbn [negb]. cbn zeta.
  rewrite bind_emit, G1, G2, G3, G4, Ho, (open_rule_target _ Ho). cbn [lift].
  set (target := if startswith "open " (normalise text)
                 then drop 5 (normalise text) else drop 7 (normalise text)).
  rewrite bind_ret, bind_say.
  destruct (startswith "http" target).
  - rewrite open_url_run, !after_run. reflexivity.
  - destruct (contains "." target && negb (contains " " target)).
    + rewrite open_url_run, !after_run. reflexivity.
    + unfold open_file_or_uri. destruct (HAS_TERMUX_OPEN cfg); reflexivity.
Qed.

Lemma open_rule_run_witness :
  handle_command cfg_termux (Some "open example.com") (world_at (at_time 9 0 0) [])
  = MkRun [Print "Heard: open example.com";
           Print "Assistant: Opening example.com";
           Popen ["termux-tts-speak"; "Opening example.com"];
           Popen ["termux-open-url"; "http://example.com"]]
          (world_at (at_time 9 0 0) []) (Return tt).
Proof.
  exact (open_rule_run cfg_termux (world_at (at_time 9 0 0) [])
           "open example.com" eq_refl eq_refl eq_refl).
Defined.

(** *** The note rule *)

Lemma add_note_run (cfg : config) (body : string) (w : world) :
  add_note cfg body w =
    MkRun [] (final (add_note cfg body w))
          (Return (NOTES_DIR cfg +:+ "/" +:+ "note_"
                     +:+ strftime_stamp (clock w (ticks w)) +:+ ".txt")).
Proof. reflexivity. Qed.

Lemma not_space_of_lower (c x : ascii) :
  lower_char c = x -> Ascii.eqb " " x = false -> Ascii.eqb c " " = false.
Proof. intros <- H. now rewrite Ascii.eqb_sym, <- lower_char_space. Qed.

(** An utterance that reads "note ", in any letter case, then a body. *)
Lemma note_shape (text : string) :
  startswith "note " (lower text) = true ->
  item (split " " (Some 1%nat) text) 1 = inr (drop 5 text)
  /\ lower text = "note " +:+ lower (drop 5 text).
Proof.
  intros H. destruct (startswith_inv _ _ H) as [r E].
  destruct text as [|c1 [|c2 [|c3 [|c4 [|c5 body]]]]]; try discriminate E.
  cbn [lower] in E. rewrite !append_cons, append_nil_l in E.
  injection E as E1 E2 E3 E4 E5 Er.
  assert (H5 : Ascii.eqb c5 " " = true).
  { rewrite Ascii.eqb_sym, <- lower_char_space, E5. reflexivity. }
  split.
  - rewrite !split_once_cons.
    rewrite (not_space_of_lower _ _ E1 eq_refl), (not_space_of_lower _ _ E2 eq_refl),
      (not_space_of_lower _ _ E3 eq_refl), (not_space_of_lower _ _ E4 eq_refl), H5.
    reflexivity.
  - cbn [lower drop]. rewrite E1, E2, E3, E4, E5. reflexivity.
Qed.

Lemma note_body_truthy (text : string) :
  startswith "note " (lower text) = true ->
  startswith "note " (normalise text) = true ->
  truthy (drop 5 text) = true.
Proof.
  intros H Hn. destruct (note_shape _ H) as [_ E].
  destruct (drop 5 text); [|reflexivity].
  unfold normalise in Hn. rewrite E in Hn. discriminate Hn.
Qed.

(** X7.  "note <body>", said without white space in front and with no
    earlier rule triggered, stores the body exactly as it was given: the
    letters keep their case and nothing is trimmed.  The file
    [NOTES_DIR/note_<stamp>.txt] then holds the body followed by a line
    feed, and the assistant announces the path. *)
Theorem note_inline_run (cfg : config) (w : world) (text : string) :
  startswith "note " (lower text) = true ->
  before_note (normalise text) = true ->
  startswith "note " (normalise text) = true ->
  let body := drop 5 text in
  let fname := NOTES_DIR cfg +:+ "/" +:+ "note_"
                 +:+ strftime_stamp (clock w (ticks w)) +:+ ".txt" in
  handle_command cfg (Some text) w =
    MkRun (Print ("Heard: " +:+ normalise text)
             :: said cfg ("Saved note to " +:+ fname))
          (final (add_note cfg body w)) (Return tt)
  /\ files (final (handle_command cfg (Some text) w)) !! fname
     = Some (body +:+ String "010" "").
Proof.
  intros Hl Hb Hn. cbv zeta.
  assert (Hne : truthy text = true) by (destruct text; [discriminate Hl | reflexivity]).
  destruct (before_note_inv _ Hb) as (Hb1 & G5).
  destruct (before_open_inv _ Hb1) as (Hb2 & G4).
  destruct (before_search_inv _ Hb2) as (G1 & G2 & G3).
  destruct (note_shape _ Hl) as [Hitem _].
  assert (E : handle_command cfg (Some text) w =
    MkRun (Print ("Heard: " +:+ normalise text)
             :: said cfg ("Saved note to " +:+ NOTES_DIR cfg +:+ "/" +:+ "note_"
                            +:+ strftime_stamp (clock w (ticks w)) +:+ ".txt"))
          (final (add_note cfg (drop 5 text) w)) (Return tt)).
  { unfold handle_command. rewrite Hne. cbn [negb]. cbn zeta.
    unfold note_rule. rewrite bind_emit, G1, G2, G3, G4, G5, Hn. cbn [orb].
    rewrite Hitem. cbn [lift]. rewrite !bind_ret, (note_body_truthy _ Hl Hn).
    rewrite (bind_run _ _ _ _ _ _ (add_note_run cfg (drop 5 text) w)).
    rewrite say_and_print_run, !after_run. reflexivity. }
  split; [exact E|]. rewrite E. simpl. apply lookup_insert_eq.
Qed.

Lemma note_inline_run_witness :
  files (final (handle_command cfg_plain (Some "Note Call Dr Smith")
                  (world_at (at_time 9 0 0) [])))
    !! "/home/u/assistant_notes/note_20240228_090000.txt"
  = Some ("Call Dr Smith" +:+ String "010" "").
Proof.
  exact (proj2 (note_inline_run cfg_plain (world_at (at_time 9 0 0) [])
                  "Note Call Dr Smith" eq_refl eq_refl eq_refl)).
Defined.

(** X8.  "take note" (without an inline "note " at the start) asks what to
    note and listens once.  When that capture yields a text, the text is
    stored as a note and its path announced; when it yields nothing, the
    assistant says that no note was recorded and the file system stays as
    it was. *)
Theorem take_note_run (cfg : config) (w w1 : world) (t : list event)
        (h : option string) (text : string) :
  truthy text = true ->
  before_note (normalise text) = true ->
  startswith "note " (normalise text) = false ->
  contains "take note" (normalise text) = true ->
  listen_once cfg 6 8 w = MkRun t w1 (Return h) ->
  handle_command cfg (Some text) w =
    if truthy (or_else h "") then
      MkRun (Print ("Heard: " +:+ normalise text)
               :: said cfg "What would you like me to note?" ++ t
               ++ said cfg ("Saved note to " +:+ NOTES_DIR cfg +:+ "/" +:+ "note_"
                              +:+ strftime_stamp (clock w1 (ticks w1)) +:+ ".txt"))
            (final (add_note cfg (or_else h "") w1)) (Return tt)
    else
      MkRun (Print ("Heard: " +:+ normalise text)
               :: said cfg "What would you like me to note?" ++ t
               ++ said cfg "No note recorded.")
            w1 (Return tt).
Proof.
  intros Hne Hb Hn Ht Hl.
  destruct (before_note_inv _ Hb) as (Hb1 & G5).
  destruct (before_open_inv _ Hb1) as (Hb2 & G4).
  destruct (before_search_inv _ Hb2) as (G1 & G2 & G3).
  unfold handle_command. rewrite Hne. cbn [negb]. cbn zeta.
  unfold note_rule. rewrite bind_emit, G1, G2, G3, G4, G5, Hn, Ht. cbn [orb].
  assert (D : forall k : string -> M unit,
             bind (bind (say_and_print cfg "What would you like me to note?")
                        (fun _ => bind (listen_once cfg 6 8)
                                       (fun heard => ret (or_else heard ""))))
                  k w
             = after (said cfg "What would you like me to note?" ++ t)
                     (k (or_else h "") w1)).
  { intros k. unfold bind at 1.
    rewrite bind_say, (bind_run _ _ _ _ _ _ Hl). unfold ret, after. simpl.
    destruct (k (or_else h "") w1); simpl. now rewrite app_nil_r. }
  rewrite D. destruct (truthy (or_else h "")).
  - rewrite (bind_run _ _ _ _ _ _ (add_note_run cfg (or_else h "") w1)).
    rewrite say_and_print_run, !after_run. simpl. now rewrite <- app_assoc.
  - rewrite say_and_print_run, !after_run. simpl. now rewrite <- app_assoc.
Qed.

Lemma take_note_run_witness :
  handle_command cfg_termux (Some "please take note") (world_at (at_time 9 0 0) [])
  = MkRun [Print "Heard: please take note";
           Print "Assistant: What would you like me to note?";
           Popen ["termux-tts-speak"; "What would you like me to note?"];
           SubprocessRun ["termux-speech-to-text"];
           Print "Assistant: No note recorded.";
           Popen ["termux-tts-speak"; "No note recorded."]]
          (world_at (at_time 9 0 0) []) (Return tt).
Proof.
  exact (take_note_run cfg_termux (world_at (at_time 9 0 0) [])
           (world_at (at_time 9 0 0) [])
           [SubprocessRun ["termux-speech-to-text"]] None "please take note"
           eq_refl eq_refl eq_refl eq_refl eq_refl).
Defined.

(** *** The message rule *)

Lemma sms_parts (txt : string) :
  sms_rule txt = true ->
  split " " (Some 3%nat) txt =
    if startswith "send sms to " txt
    then ["send"; "sms"; "to"; drop 12 txt]
    else ["send"; "message"; "to"; drop 16 txt].
Proof.
  unfold sms_rule. intros H.
  destruct (startswith "send sms to " txt) eqn:Hs.
  - destruct (startswith_inv _ _ Hs) as [r ->].
    rewrite !append_cons, append_nil_l. simpl. now rewrite split_limit_0.
  - cbn [orb] in H. destruct (startswith_inv _ _ H) as [r ->].
    rewrite !append_cons, append_nil_l. simpl. now rewrite split_limit_0.
Qed.

Lemma send_sms_run (cfg : config) (number message : string) (w : world) :
  send_sms cfg number message w =
    MkRun (if HAS_TERMUX_SMS cfg
           then [SubprocessRun ["termux-sms-send"; "-n"; number; message]] else [])
          w (Return (HAS_TERMUX_SMS cfg)).
Proof. unfold send_sms. destruct (HAS_TERMUX_SMS cfg); reflexivity. Qed.

(** X9.  For a non-empty utterance whose normalised text starts with "send
    sms to " or "send message to " and triggers no earlier rule, the text
    always splits into four parts, so the usage hint ("Please say the
    command like ...") is never given.  The number is everything after the
    third space; the assistant asks for the message and listens once; the
    message tool is run, with that number and message, only when a
    non-empty message was heard and the capability is present, and "Message
    sent." is said; in every other case "Unable to send message." is said
    and nothing is sent. *)
Theorem sms_rule_run (cfg : config) (w w1 : world) (t : list event)
        (h : option string) (text : string) :
  truthy text = true ->
  before_sms (normalise text) = true ->
  sms_rule (normalise text) = true ->
  listen_once cfg 6 8 w = MkRun t w1 (Return h) ->
  let txt := normalise text in
  let number := if startswith "send sms to " txt then drop 12 txt else drop 16 txt in
  let message := or_else h "" in
  length (split " " (Some 3%nat) txt) = 4%nat
  /\ handle_command cfg (Some text) w =
       MkRun (Print ("Heard: " +:+ txt)
                :: said cfg "What is the message?" ++ t
                ++ (if truthy message && HAS_TERMUX_SMS cfg
                    then SubprocessRun ["termux-sms-send"; "-n"; number; message]
                           :: said cfg "Message sent."
                    else said cfg "Unable to send message."))
             w1 (Return tt).
Proof.
  intros Hne Hb Hs Hl. cbv zeta.
  assert (Hb' : before_call (normalise text) = true /\ call_rule (normalise text) = false).
  { unfold before_sms in Hb. destruct (before_call (normalise text)); [|discriminate].
    destruct (call_rule (normalise text)); [discriminate | tauto]. }
  destruct Hb' as [Hb' Hc].
  split.
  { rewrite (sms_parts _ Hs). destruct (startswith "send sms to " (normalise text)); reflexivity. }
  rewrite (skip_to_call cfg w text Hne Hb'). cbn zeta. rewrite Hc, Hs, (sms_parts _ Hs).
  destruct (startswith "send sms to " (normalise text));
    cbn [length Nat.leb item nth_error lift];
    rewrite bind_ret, bind_say, (bind_run _ _ _ _ _ _ Hl);
    (destruct (truthy (or_else h "")); cbn [andb];
     [ rewrite (bind_run _ _ _ _ _ _ (send_sms_run _ _ _ _));
       destruct (HAS_TERMUX_SMS cfg)
     | rewrite bind_ret ]);
    rewrite say_and_print_run, !after_run; cbn [app];
    rewrite <- ?app_assoc; reflexivity.
Qed.

Lemma sms_rule_run_witness :
  handle_command cfg_termux (Some "send message to john smith")
    (world_at (at_time 9 0 0) [Heard "Running late"])
  = MkRun [Print "Heard: send message to john smith";
           Print "Assistant: What is the message?";
           Popen ["termux-tts-speak"; "What is the message?"];
           SubprocessRun ["termux-speech-to-text"];
           SubprocessRun ["termux-sms-send"; "-n"; "john smith"; "running late"];
           Print "Assistant: Message sent.";
           Popen ["termux-tts-speak"; "Message sent."]]
          (world_at (at_time 9 0 0) []) (Return tt).
Proof.
  exact (proj2 (sms_rule_run cfg_termux
                  (world_at (at_time 9 0 0) [Heard "Running late"])
                  (world_at (at_time 9 0 0) [])
                  [SubprocessRun ["termux-speech-to-text"]] (Some "running late")
                  "send message to john smith"
                  eq_refl eq_refl eq_refl eq_refl)).
Defined.

(** *** What the assistant leaves alone on disk *)

Lemma keeps_same (cfg : config) {A} (m : M A) :
  (forall w, files (final (m w)) = files w) -> keeps_other_files cfg m.
Proof. intros H w path _. now rewrite H. Qed.

Lemma keeps_bind (cfg : config) {A B} (m : M A) (k : A -> M B) :
  keeps_other_files cfg m -> (forall a, keeps_other_files cfg (k a)) ->
  keeps_other_files cfg (bind m k).
Proof.
  intros Hm Hk w path Hp. unfold bind. specialize (Hm w path Hp).
  destruct (m w) as [t w' [a|e]]; cbn [trace final value] in *; [|exact Hm].
  now rewrite (Hk a w' path Hp).
Qed.

Lemma keeps_write_note (cfg : config) (stamp body : string) :
  keeps_other_files cfg
    (modify (fun w => set_files
                        (<[ NOTES_DIR cfg +:+ "/" +:+ "note_" +:+ stamp +:+ ".txt"
                            := body ]> (files w)) w)).
Proof.
  intros w path Hp. simpl. apply lookup_insert_ne. intros <-.
  change (NOTES_DIR cfg +:+ "/" +:+ "note_" +:+ stamp +:+ ".txt")
    with (NOTES_DIR cfg +:+ "/note_" +:+ stamp +:+ ".txt") in Hp.
  rewrite <- append_assoc, startswith_append in Hp. discriminate Hp.
Qed.

Ltac walk_keeps :=
  repeat lazymatch goal with
  | |- keeps_other_files _ (bind _ _) => apply keeps_bind; [|intros]
  | |- keeps_other_files _ (modify (fun w => set_files _ _)) =>
      apply keeps_write_note
  | |- keeps_other_files _ (if ?b then _ else _) => destruct b
  | |- keeps_other_files _ (match ?x with _ => _ end) => destruct x
  | |- keeps_other_files _ next_capture =>
      apply keeps_same; intros ?; unfold next_capture;
      match goal with |- context [mic ?w] => destruct (mic w) end; reflexivity
  | |- keeps_other_files _ (lift ?r) =>
      apply keeps_same; intros ?; destruct r; reflexivity
  | |- keeps_other_files _ _ => apply keeps_same; intros ?; reflexivity
  end.

Lemma keeps_handle_command (cfg : config) (text : option string) :
  keeps_other_files cfg (handle_command cfg text).
Proof. open_operations. unfold schedule_reminder. walk_keeps. Qed.

Lemma keeps_main_loop_body (cfg : config) : keeps_other_files cfg (main_loop_body cfg).
Proof.
  unfold main_loop_body.
  repeat lazymatch goal with
  | |- keeps_other_files _ (handle_command _ _) => apply keeps_handle_command
  | |- keeps_other_files _ (bind _ _) => apply keeps_bind; [|intros]
  | |- keeps_other_files _ (say_and_print _ _) => unfold say_and_print, tts; walk_keeps
  | |- keeps_other_files _ (listen_once _ _ _) => unfold listen_once; walk_keeps
  | |- keeps_other_files _ (if ?b then _ else _) => destruct b
  | |- keeps_other_files _ (match ?x with _ => _ end) => destruct x
  | |- _ => walk_keeps
  end.
Qed.

(** X10.  Whatever is said, the only files the assistant itself writes are
    notes: after any dispatch, and after any number of turns of the
    wake-word loop, whether they end normally or by an exception, every
    path that does not start with [NOTES_DIR/note_] holds the file it held
    before, or still none. *)
Theorem only_notes_are_written (cfg : config) :
  (forall text : option string, keeps_other_files cfg (handle_command cfg text))
  /\ (forall turns : nat, keeps_other_files cfg (main_loop cfg turns)).
Proof.
  split; [apply keeps_handle_command|].
  intros turns. unfold main_loop.
  apply keeps_bind; [unfold say_and_print, tts; walk_keeps|]. intros _.
  induction turns as [|k IH]; simpl; [walk_keeps|].
  apply keeps_bind; [apply keeps_main_loop_body | intros; exact IH].
Qed.

Lemma only_notes_are_written_witness :
  files (final (handle_command cfg_plain (Some "note feed the cat")
                  (set_files {[ "/home/u/todo.txt" := "keep" ]}
                             (world_at (at_time 9 0 0) []))))
    !! "/home/u/todo.txt"
  = Some "keep".
Proof.
  exact (proj1 (only_notes_are_written cfg_plain) (Some "note feed the cat")
           (set_files {[ "/home/u/todo.txt" := "keep" ]}
                      (world_at (at_time 9 0 0) []))
           "/home/u/todo.txt" eq_refl).
Defined.

(** *** What the time phrase parser can produce *)

Lemma replace_time_inv (now t : datetime) (hh mm : Z) :
  replace_time now hh mm = inr t ->
  t = {| year := year now; month := month now; day := day now;
         hour := hh; minute := mm; second := 0; microsecond := 0 |}
  /\ 0 <= hh <= 23 /\ 0 <= mm <= 59.
Proof.
  unfold replace_time.
  destruct ((0 <=? hh) && (hh <=? 23)) eqn:Hh; cbn [negb]; [|discriminate].
  destruct ((0 <=? mm) && (mm <=? 59)) eqn:Hm; cbn [negb]; [|discriminate].
  intros H; injection H as <-.
  apply andb_true_iff in Hh as [H1 H2]. apply andb_true_iff in Hm as [H3 H4].
  apply Z.leb_le in H1, H2, H3, H4. repeat split; assumption.
Qed.

(** The result of the parser on a phrase that starts with "at ". *)
Lemma parsed_at (now : datetime) (tstr : string) :
  parsed now ("at " +:+ tstr) =
    match unpack_hh_mm (split ":" None tstr) with
    | inl _ => None
    | inr hm =>
        match replace_time now (fst hm) (snd hm) with
        | inl _ => None
        | inr t => if ltb t now then None else Some t
        end
    end.
Proof.
  unfold parsed, parse_when, entry, pbind, read_when, assign_when, assign_n,
    assign_rem_time, plift, pret.
  cbn [v_when v_n v_rem_time].
  change (startswith "in " ("at " +:+ tstr)) with false.
  rewrite startswith_append. cbn iota.
  change ("at " +:+ tstr) with ("at" +:+ String " " tstr).
  rewrite split_at_space by reflexivity. cbn [item nth_error].
  destruct (unpack_hh_mm (split ":" None tstr)) as [e|hm]; [reflexivity|].
  destruct (replace_time now (fst hm) (snd hm)) as [e|t]; [reflexivity|].
  destruct (ltb t now); [rewrite plus_timedelta_unbound|]; reflexivity.
Qed.

Lemma parsed_other (now : datetime) (when : string) :
  startswith "in " when = false -> startswith "at " when = false ->
  parsed now when = None.
Proof.
  intros Hi Ha.
  unfold parsed, parse_when, entry, pbind, read_when, pret.
  cbn [v_when]. now rewrite Hi, Ha.
Qed.

(** X11.  Whatever the phrase, a time produced by the reminder parser comes
    from a phrase that starts with "at ", lies on the day of the current
    time, is a whole minute with hour 0..23 and minute 0..59, and is not
    before the current time.  So as the code stands no reminder is ever set
    for another day or through an "in ..." phrase. *)
Theorem parsed_time_shape (now t : datetime) (when : string) :
  parsed now when = Some t ->
  startswith "at " when = true
  /\ year t = year now /\ month t = month now /\ day t = day now
  /\ 0 <= hour t <= 23 /\ 0 <= minute t <= 59
  /\ second t = 0 /\ microsecond t = 0
  /\ ltb t now = false.
Proof.
  intros H.
  destruct (startswith "in " when) eqn:Hi.
  { destruct (startswith_inv _ _ Hi) as [r ->]. now rewrite parsed_in in H. }
  destruct (startswith "at " when) eqn:Ha; [|now rewrite parsed_other in H].
  split; [reflexivity|].
  destruct (startswith_inv _ _ Ha) as [tstr ->]. rewrite parsed_at in H.
  destruct (unpack_hh_mm (split ":" None tstr)) as [e|[hh mm]]; [discriminate|].
  cbn [fst snd] in H.
  destruct (replace_time now hh mm) as [e|t'] eqn:E; [discriminate|].
  destruct (ltb t' now) eqn:L; [discriminate|]. injection H as <-.
  destruct (replace_time_inv _ _ _ _ E) as (-> & Hh & Hm). cbn in *.
  repeat split; try assumption; lia.
Qed.

Lemma parsed_time_shape_witness :
  parsed (at_time 17 0 0) "at 18:30" = Some (at_time 18 30 0)
  /\ ltb (at_time 18 30 0) (at_time 17 0 0) = false.
Proof.
  split; [reflexivity|].
  exact (proj2 (proj2 (proj2 (proj2 (proj2 (proj2 (proj2 (proj2
           (parsed_time_shape (at_time 17 0 0) (at_time 18 30 0) "at 18:30"
              eq_refl))))))))).
Defined.

Lemma unpack_two_digits :
  forallb (fun a =>
    forallb (fun b =>
      match unpack_hh_mm (split ":" None (padded 2 (Z.of_nat a) +:+ ":"
                                            +:+ padded 2 (Z.of_nat b))) with
      | inr hm => (fst hm =? Z.of_nat a) && (snd hm =? Z.of_nat b)
      | inl _ => false
      end) (List.seq 0 60)) (List.seq 0 24) = true.
Proof. vm_compute. reflexivity. Qed.

Lemma unpack_padded (h m : Z) :
  0 <= h <= 23 -> 0 <= m <= 59 ->
  unpack_hh_mm (split ":" None (padded 2 h +:+ ":" +:+ padded 2 m)) = inr (h, m).
Proof.
  intros Hh Hm. pose proof unpack_two_digits as U.
  rewrite List.forallb_forall in U.
  specialize (U (Z.to_nat h)). rewrite List.forallb_forall in U.
  assert (Ih : In (Z.to_nat h) (List.seq 0 24)) by (apply List.in_seq; lia).
  assert (Im : In (Z.to_nat m) (List.seq 0 60)) by (apply List.in_seq; lia).
  specialize (U Ih (Z.to_nat m) Im).
  rewrite !Z2Nat.id in U by lia.
  destruct (unpack_hh_mm (split ":" None (padded 2 h +:+ ":" +:+ padded 2 m)))
    as [e|[x y]]; [discriminate|].
  cbn [fst snd] in U. apply andb_true_iff in U as [U1 U2].
  apply Z.eqb_eq in U1, U2. now subst.
Qed.

(** X12.  Writing a clock time with two digits each and reading it back:
    for an hour 0..23 and a minute 0..59 the phrase "at HH:MM" is parsed to
    that hour and minute of the current day, seconds zero, provided this
    moment is not before the current time; when it is, the parser yields no
    time. *)
Theorem at_phrase_round_trip (now : datetime) (h m : Z) :
  0 <= h <= 23 -> 0 <= m <= 59 ->
  let t := {| year := year now; month := month now; day := day now;
              hour := h; minute := m; second := 0; microsecond := 0 |} in
  parsed now ("at " +:+ padded 2 h +:+ ":" +:+ padded 2 m)
  = if ltb t now then None else Some t.
Proof.
  intros Hh Hm t. rewrite parsed_at, (unpack_padded h m Hh Hm). cbn [fst snd].
  unfold replace_time.
  assert (E1 : (0 <=? h) && (h <=? 23) = true)
    by (apply andb_true_iff; split; apply Z.leb_le; lia).
  assert (E2 : (0 <=? m) && (m <=? 59) = true)
    by (apply andb_true_iff; split; apply Z.leb_le; lia).
  rewrite E1, E2. reflexivity.
Qed.

Lemma at_phrase_round_trip_witness :
  parsed (at_time 6 15 0) "at 07:05" = Some (at_time 7 5 0).
Proof.
  exact (at_phrase_round_trip (at_time 6 15 0) 7 5 ltac:(lia) ltac:(lia)).
Defined.

(** *** The speech adapter *)






(** *** The URLs that are built *)

Lemma contains_char_append (x : ascii) (a b : string) :
  contains (String x "") (a +:+ b)
  = contains (String x "") a || contains (String x "") b.
Proof.
  induction a as [|c a IH]; [reflexivity|].
  rewrite append_cons, !contains_char_cons, IH. now rewrite orb_assoc.
Qed.

Lemma replace_char_clears (x y : ascii) (s : string) :
  Ascii.eqb x y = false -> contains (String x "") (replace_char x y s) = false.
Proof.
  intros Hxy. induction s as [|c s IH]; [reflexivity|].
  cbn [replace_char]. rewrite contains_char_cons, IH, orb_false_r.
  destruct (Ascii.eqb c x) eqn:E; [exact Hxy|].
  now rewrite Ascii.eqb_sym.
Qed.

Lemma search_url_spaceless (q : string) : contains " " (search_url q) = false.
Proof.
  unfold search_url. rewrite contains_char_append, replace_char_clears by reflexivity.
  reflexivity.
Qed.

Lemma wiki_url_spaceless (q : string) :
  contains " " ("https://en.wikipedia.org/wiki/" +:+ replace_char " " "_" q) = false.
Proof. rewrite contains_char_append, replace_char_clears by reflexivity. reflexivity. Qed.

Lemma http_url_spaceless (target : string) :
  contains " " target = false -> contains " " ("http://" +:+ target) = false.
Proof. intros H. rewrite contains_char_append, H. reflexivity. Qed.

Lemma spaceless_opened (tr : list event) :
  existsb spaced_url tr = false ->
  Forall (fun url => contains " " url = false) (opened tr).
Proof.
  induction tr as [|e tr IH]; [constructor|].
  cbn [existsb]. intros H. apply orb_false_iff in H as [He Ht].
  unfold opened. cbn [omap list_omap]. unfold spaced_url in He.
  destruct (opened_url e) as [url|]; [constructor; [exact He|]|]; exact (IH Ht).
Qed.

Lemma silent_bind_ret (P : event -> bool) {A B} (a : A) (k : A -> M B) :
  silent P (k a) -> silent P (bind (ret a) k).
Proof. intros H w. rewrite bind_ret. apply H. Qed.

Ltac walk_spaceless :=
  repeat lazymatch goal with
  | |- silent _ (bind _ _) => apply silent_bind; [|intros]
  | |- silent _ (ret _) => apply silent_ret
  | |- silent _ (raise _) => apply silent_raise
  | |- silent _ (lift _) => apply silent_lift
  | |- silent _ (modify _) => apply silent_modify
  | |- silent _ datetime_now => apply silent_now
  | |- silent _ next_capture => apply silent_next_capture
  | |- silent _ (emit _) =>
      apply silent_emit;
      first [ reflexivity
            | exact (search_url_spaceless _)
            | exact (wiki_url_spaceless _)
            | assumption
            | apply http_url_spaceless; assumption ]
  | |- silent _ (if ?b then _ else _) => destruct b
  | |- silent _ (match ?x with _ => _ end) => destruct x
  end.

Ltac open_effects :=
  unfold reminder_time, add_note, ensure_notes_dir, schedule_reminder, open_url,
    open_file_or_uri, send_sms, make_call, say_and_print, listen_once, tts.

Lemma spaceless_dispatch (cfg : config) (t : string) :
  (truthy t = true -> before_open (normalise t) = true ->
   open_rule (normalise t) = true ->
   contains " " (open_target (normalise t)) = false) ->
  silent spaced_url (handle_command cfg (Some t)).
Proof.
  intros H. unfold handle_command.
  destruct (truthy t) eqn:Hne; cbn [negb]; [|apply silent_ret]. cbn zeta.
  apply silent_bind; [apply silent_emit; reflexivity | intros _].
  destruct (stop_rule (normalise t)) eqn:G1; [open_effects; walk_spaceless|].
  destruct (time_rule (normalise t)) eqn:G2; [open_effects; walk_spaceless|].
  destruct (date_rule (normalise t)) eqn:G3; [open_effects; walk_spaceless|].
  destruct (search_rule (normalise t)) eqn:G4; [open_effects; walk_spaceless|].
  destruct (open_rule (normalise t)) eqn:G5; [|open_effects; walk_spaceless].
  assert (Hsp : contains " " (open_target (normalise t)) = false).
  { apply H; [reflexivity| |reflexivity].
    unfold before_open, before_search. now rewrite G1, G2, G3, G4. }
  rewrite (open_rule_target _ G5). fold (open_target (normalise t)).
  apply silent_bind_ret. open_effects. walk_spaceless.
Qed.

(** X14.  Every URL that a dispatch opens is free of spaces, whatever the
    utterance, the configuration and the backend's answers, with one
    exception: what the open rule opens is the target as it was spoken.
    So the property holds of every dispatch in which the open rule does not
    fire or its target has no space (the web search URLs have "+" for each
    space, the encyclopedia URL has "_", and "http://" is put only in front
    of a target without spaces); and a target that starts with "http" is
    opened as it is, with the spaces it has. *)
Theorem built_urls_have_no_space (cfg : config) (text : string) (w : world) :
  ((truthy text = true -> before_open (normalise text) = true ->
    open_rule (normalise text) = true ->
    contains " " (open_target (normalise text)) = false) ->
   Forall (fun url => contains " " url = false)
          (opened (trace (handle_command cfg (Some text) w))))
  /\ (truthy text = true -> before_open (normalise text) = true ->
      open_rule (normalise text) = true ->
      startswith "http" (open_target (normalise text)) = true ->
      opened (trace (handle_command cfg (Some text) w))
      = [open_target (normalise text)]).
Proof.
  split.
  - intros H. apply spaceless_opened. exact (spaceless_dispatch cfg text H w).
  - intros Hne Hb Ho Hh.
    destruct (before_open_inv _ Hb) as (Hb' & G4).
    destruct (before_search_inv _ Hb') as (G1 & G2 & G3).
    unfold handle_command. rewrite Hne. cbn [negb]. cbn zeta.
    rewrite bind_emit, G1, G2, G3, G4, Ho, (open_rule_target _ Ho). cbn [lift].
    fold (open_target (normalise text)).
    rewrite bind_ret, bind_say, Hh, open_url_run, !after_run.
    cbn [trace]. change (Print ?x :: ?l) with ([Print x] ++ l).
    rewrite !opened_app, opened_said.
    unfold opened. destruct (HAS_TERMUX_OPEN cfg); reflexivity.
Qed.

Lemma built_urls_have_no_space_witness :
  Forall (fun url => contains " " url = false)
         (opened (trace (handle_command cfg_termux (Some "Open Example.org")
                           (world_at (at_time 9 0 0) []))))
  /\ opened (trace (handle_command cfg_termux (Some "open http://example.com/my page")
                      (world_at (at_time 9 0 0) [])))
     = ["http://example.com/my page"].
Proof.
  split.
  - exact (proj1 (built_urls_have_no_space cfg_termux "Open Example.org"
                    (world_at (at_time 9 0 0) [])) (fun _ _ _ => eq_refl)).
  - exact (proj2 (built_urls_have_no_space cfg_termux "open http://example.com/my page"
                    (world_at (at_time 9 0 0) [])) eq_refl eq_refl eq_refl eq_refl).
Defined.

(** *** The turns of the loop that do not wake *)

Lemma assistant_command (s : string) :
  startswith "assistant " s = true ->
  startswith "assistant" s = true /\ contains " " s = true
  /\ item (split " " (Some 1%nat) s) 1 = inr (drop 10 s).
Proof.
  intros H. destruct (startswith_inv _ _ H) as [r ->].
  split; [reflexivity|]. split.
  - exact (startswith_space "assistant " _ eq_refl H).
  - change ("assistant " +:+ r) with ("assistant" +:+ String " " r).
    now rewrite split_at_space.
Qed.

(** X15.  A turn of the loop whose capture delivers a phrase without any
    wake word: when the lowered phrase starts with "assistant ", the rest of
    it is dispatched at once, without a second capture; when it is just
    "assistant", nothing is dispatched; and when it does not start with
    "assistant" at all, the phrase is ignored.  In the last two cases the
    turn does nothing beyond the capture. *)
Theorem direct_address_turn (cfg : config) (w w1 : world) (t : list event)
        (spoken : string) :
  listen_once cfg 6 6 w = MkRun t w1 (Return (Some spoken)) ->
  truthy spoken = true ->
  any_in WAKE_WORDS (lower spoken) = false ->
  (startswith "assistant " (lower spoken) = true ->
   main_loop_body cfg w
   = after t (handle_command cfg (Some (drop 10 (lower spoken))) w1))
  /\ (lower spoken = "assistant" -> main_loop_body cfg w = MkRun t w1 (Return tt))
  /\ (startswith "assistant" (lower spoken) = false ->
      main_loop_body cfg w = MkRun t w1 (Return tt)).
Proof.
  intros Hl Hne Hw.
  assert (Hj : startswith "jarvis" (lower spoken) = false).
  { destruct (startswith "jarvis" (lower spoken)) eqn:E; [|reflexivity].
    now rewrite (jarvis_is_wake_word _ E) in Hw. }
  unfold main_loop_body. rewrite (bind_run _ _ _ _ _ _ Hl), Hne. cbn [negb].
  cbn zeta. rewrite Hw, Hj.
  split; [|split].
  - intros Ha. destruct (assistant_command _ Ha) as (H1 & H2 & H3).
    rewrite H1, H2, H3. cbn [orb lift]. f_equal.
  - intros ->. cbn. unfold after, ret. cbn. now rewrite app_nil_r.
  - intros Ha. rewrite Ha. cbn. unfold after, ret. cbn. now rewrite app_nil_r.
Qed.

Lemma direct_address_turn_witness :
  main_loop_body cfg_termux (world_at (at_time 9 0 0) [Heard "Assistant what is the date"])
  = MkRun [SubprocessRun ["termux-speech-to-text"];
           Print "Heard: what is the date";
           Print "Assistant: Today's date is 2024-02-28";
           Popen ["termux-tts-speak"; "Today's date is 2024-02-28"]]
          (set_ticks 1 (world_at (at_time 9 0 0) [])) (Return tt).
Proof.
  exact (proj1 (direct_address_turn cfg_termux
                  (world_at (at_time 9 0 0) [Heard "Assistant what is the date"])
                  (world_at (at_time 9 0 0) [])
                  [SubprocessRun ["termux-speech-to-text"]]
                  "assistant what is the date" eq_refl eq_refl eq_refl) eq_refl).
Defined.

(** *** The reminder dialogue, when it succeeds *)

Lemma parse_when_at_padded (now : datetime) (h m : Z) :
  0 <= h <= 23 -> 0 <= m <= 59 ->
  let t := {| year := year now; month := month now; day := day now;
              hour := h; minute := m; second := 0; microsecond := 0 |} in
  ltb t now = false ->
  parse_when now (entry ("at " +:+ padded 2 h +:+ ":" +:+ padded 2 m))
  = ({| v_when := "at " +:+ padded 2 h +:+ ":" +:+ padded 2 m;
        v_n := None; v_rem_time := Some t |}, inr tt).
Proof.
  intros Hh Hm t Hl.
  unfold parse_when, entry, pbind, read_when, assign_when, assign_n,
    assign_rem_time, plift, pret.
  cbn [v_when v_n v_rem_time].
  change (startswith "in " ("at " +:+ padded 2 h +:+ ":" +:+ padded 2 m)) with false.
  rewrite startswith_append. cbn iota.
  change ("at " +:+ padded 2 h +:+ ":" +:+ padded 2 m)
    with ("at" +:+ String " " (padded 2 h +:+ ":" +:+ padded 2 m)) at 1.
  rewrite split_at_space by reflexivity. cbn [item nth_error].
  rewrite (unpack_padded h m Hh Hm). cbn [fst snd].
  unfold replace_time.
  assert (E1 : (0 <=? h) && (h <=? 23) = true)
    by (apply andb_true_iff; split; apply Z.leb_le; lia).
  assert (E2 : (0 <=? m) && (m <=? 59) = true)
    by (apply andb_true_iff; split; apply Z.leb_le; lia).
  rewrite E1, E2. cbn [negb]. fold t. now rewrite Hl.
Qed.

(** X16.  The dialogue that sets a reminder.  When a dispatch reaches the
    reminder rule, the first capture delivers "at HH:MM" (hour 0..23, minute
    0..59, two digits each) for a moment of today that is not before the
    clock reading, and the second capture delivers the message, then the
    assistant asks its two questions, starts one thread for that moment and
    message, appends the pair to the reminder list and confirms with the
    ISO form of the moment; nothing is printed as a parse error.  A missing
    or empty message is replaced by "Reminder". *)
Theorem reminder_set_run (cfg : config) (text : string) (w w1 w2 : world)
        (t1 t2 : list event) (h2 : option string) (h m : Z) :
  truthy text = true ->
  before_remind (normalise text) = true ->
  remind_rule (normalise text) = true ->
  0 <= h <= 23 -> 0 <= m <= 59 ->
  listen_once cfg 6 8 w
    = MkRun t1 w1 (Return (Some ("at " +:+ padded 2 h +:+ ":" +:+ padded 2 m))) ->
  listen_once cfg 6 8 w1 = MkRun t2 w2 (Return h2) ->
  let now := clock w2 (ticks w2) in
  let rem_time := {| year := year now; month := month now; day := day now;
                     hour := h; minute := m; second := 0; microsecond := 0 |} in
  let message := or_else h2 "Reminder" in
  ltb rem_time now = false ->
  handle_command cfg (Some text) w =
    MkRun
      ([Print ("Heard: " +:+ normalise text)]
       ++ said cfg "Okay, when should I remind you? (say in 10 minutes / at 18:30 / in 1 hour)"
       ++ t1
       ++ said cfg "What is the reminder message?"
       ++ t2
       ++ ThreadStart rem_time message
       :: said cfg ("Reminder set for " +:+ isoformat rem_time))
      (set_REMINDERS (REMINDERS w2 ++ [(rem_time, message)])
                     (set_ticks (S (ticks w2)) w2))
      (Return tt).
Proof.
  intros Hne Hb Hr Hh Hm H1 H2 now rem_time message Hl.
  rewrite (remind_run cfg text w w1 w2 t1 t2 _ h2 Hne Hb Hr H1 H2). cbv zeta.
  assert (W : or_else (Some ("at " +:+ padded 2 h +:+ ":" +:+ padded 2 m)) ""
              = "at " +:+ padded 2 h +:+ ":" +:+ padded 2 m) by reflexivity.
  rewrite W. unfold parsed, parse_complaint.
  rewrite (parse_when_at_padded (clock w2 (ticks w2)) h m Hh Hm Hl).
  reflexivity.
Qed.

Lemma reminder_set_run_witness :
  handle_command cfg_termux (Some "remind me")
    (world_at (at_time 17 0 0) [Heard "at 18:30"])
  = MkRun
      [Print "Heard: remind me";
       Print "Assistant: Okay, when should I remind you? (say in 10 minutes / at 18:30 / in 1 hour)";
       Popen ["termux-tts-speak";
              "Okay, when should I remind you? (say in 10 minutes / at 18:30 / in 1 hour)"];
       SubprocessRun ["termux-speech-to-text"];
       Print "Assistant: What is the reminder message?";
       Popen ["termux-tts-speak"; "What is the reminder message?"];
       SubprocessRun ["termux-speech-to-text"];
       ThreadStart (at_time 18 30 0) "Reminder";
       Print "Assistant: Reminder set for 2024-02-28T18:30:00";
       Popen ["termux-tts-speak"; "Reminder set for 2024-02-28T18:30:00"]]
      (set_REMINDERS [(at_time 18 30 0, "Reminder")]
                     (set_ticks 1 (world_at (at_time 17 0 0) [])))
      (Return tt).
Proof.
  exact (reminder_set_run cfg_termux "remind me"
           (world_at (at_time 17 0 0) [Heard "at 18:30"])
           (world_at (at_time 17 0 0) [])
           (world_at (at_time 17 0 0) [])
           [SubprocessRun ["termux-speech-to-text"]]
           [SubprocessRun ["termux-speech-to-text"]]
           None 18 30
           eq_refl eq_refl eq_refl ltac:(lia) ltac:(lia) eq_refl eq_refl eq_refl).
Defined.

(** *** Placing a call *)

Lemma call_rule_number (txt : string) :
  call_rule txt = true -> item (split " " (Some 1%nat) txt) 1 = inr (drop 5 txt).
Proof.
  intros H. destruct (startswith_inv _ _ H) as [r ->].
  change ("call " +:+ r) with ("call" +:+ String " " r).
  now rewrite split_at_space.
Qed.

(** X17.  With the call capability present, a non-empty utterance whose
    normalised text starts with "call " and triggers none of the seven
    rules before the call rule starts the call tool exactly once, with the
    text after "call " stripped of white space as the number, and then says
    "Calling" and that number. *)
Theorem call_placed_run (cfg : config) (w : world) (text : string) :
  HAS_TERMUX_CALL cfg = true ->
  truthy text = true ->
  before_call (normalise text) = true ->
  call_rule (normalise text) = true ->
  let number := strip (drop 5 (normalise text)) in
  handle_command cfg (Some text) w =
    MkRun (Print ("Heard: " +:+ normalise text)
             :: SubprocessRun ["termux-telephony-call"; number]
             :: said cfg ("Calling " +:+ number))
          w (Return tt).
Proof.
  intros Hcall Hne Hb Hc. cbv zeta.
  rewrite (skip_to_call cfg w text Hne Hb). cbn zeta.
  rewrite Hc, (call_rule_number _ Hc). cbn [lift]. rewrite bind_ret.
  unfold make_call. rewrite Hcall.
  unfold bind at 1. cbn [emit ret bind value final trace].
  rewrite say_and_print_run, after_run. reflexivity.
Qed.

Lemma call_placed_run_witness :
  handle_command cfg_phone (Some "Call  555 0100") (world_at (at_time 9 0 0) [])
  = MkRun [Print "Heard: call  555 0100";
           SubprocessRun ["termux-telephony-call"; "555 0100"];
           Print "Assistant: Calling 555 0100";
           Popen ["termux-tts-speak"; "Calling 555 0100"]]
          (world_at (at_time 9 0 0) []) (Return tt).
Proof.
  exact (call_placed_run cfg_phone (world_at (at_time 9 0 0) []) "Call  555 0100"
           eq_refl eq_refl eq_refl eq_refl).
Defined.

(** *** The wake test *)

Lemma contains_trans (a b s : string) :
  contains a b = true -> contains b s = true -> contains a s = true.
Proof.
  intros Hab Hbs.
  destruct (contains_inv _ _ Hab) as (x & y & ->).
  destruct (contains_inv _ _ Hbs) as (u & v & ->).
  replace (u +:+ (x +:+ a +:+ y) +:+ v) with ((u +:+ x) +:+ a +:+ (y +:+ v))
    by (rewrite !append_assoc; reflexivity).
  apply contains_append.
Qed.

Lemma wake_test (s : string) : any_in WAKE_WORDS s = contains "jarvis" s.
Proof.
  unfold any_in, WAKE_WORDS. cbn [existsb]. rewrite orb_false_r.
  destruct (contains "jarvis" s) eqn:J; [now rewrite !orb_true_r|].
  destruct (contains "hey jarvis" s) eqn:H1.
  { now rewrite (contains_trans "jarvis" "hey jarvis" s eq_refl H1) in J. }
  destruct (contains "ok jarvis" s) eqn:H2.
  { now rewrite (contains_trans "jarvis" "ok jarvis" s eq_refl H2) in J. }
  reflexivity.
Qed.

(** X18.  The wake test of the loop amounts to "jarvis" occurring anywhere
    in the lowered phrase: "hey jarvis" and "ok jarvis" add nothing to it.
    When it succeeds, whatever else the phrase says is not dispatched: the
    turn answers "Yes? How can I help?", captures once more with the longer
    limits and dispatches only that second capture. *)
Theorem wake_turn (cfg : config) (w w1 : world) (t : list event) (spoken : string) :
  (forall s : string, any_in WAKE_WORDS s = contains "jarvis" s)
  /\ (listen_once cfg 6 6 w = MkRun t w1 (Return (Some spoken)) ->
      contains "jarvis" (lower spoken) = true ->
      main_loop_body cfg w =
        after (t ++ said cfg "Yes? How can I help?")
              ((let* cmd := listen_once cfg 10 12 in handle_command cfg cmd) w1)).
Proof.
  split; [exact wake_test|]. intros Hl Hj.
  assert (Hne : truthy spoken = true).
  { destruct spoken; [discriminate Hj | reflexivity]. }
  unfold main_loop_body. rewrite (bind_run _ _ _ _ _ _ Hl), Hne. cbn [negb].
  cbn zeta. rewrite wake_test, Hj, bind_say. now rewrite after_after.
Qed.

Lemma wake_turn_witness :
  main_loop_body cfg_termux
    (world_at (at_time 9 0 0) [Heard "ok Jarvis what time is it"; Heard "date"])
  = MkRun [SubprocessRun ["termux-speech-to-text"];
           Print "Assistant: Yes? How can I help?";
           Popen ["termux-tts-speak"; "Yes? How can I help?"];
           SubprocessRun ["termux-speech-to-text"];
           Print "Heard: date";
           Print "Assistant: Today's date is 2024-02-28";
           Popen ["termux-tts-speak"; "Today's date is 2024-02-28"]]
          (set_ticks 1 (world_at (at_time 9 0 0) [])) (Return tt).
Proof.
  refine (eq_trans
            (proj2 (wake_turn cfg_termux
                      (world_at (at_time 9 0 0) [Heard "ok Jarvis what time is it"; Heard "date"])
                      (world_at (at_time 9 0 0) [Heard "date"])
                      [SubprocessRun ["termux-speech-to-text"]]
                      "ok jarvis what time is it") _ _) _);
    reflexivity.
Defined.
